(** * Shoulder-recovery planner: the rules engine, embedded and verified

    A shallow embedding of [src/lib/rules-engine.ts] (the planner of the
    shoulder-recovery application) together with the properties that its
    specification states about it, followed by the planner's callers in
    the rehab page and the dashboard, the streak counter of
    [src/lib/utils.ts], and further properties of all of these.

    Conventions of the embedding.
    - A JavaScript [number] that the code only ever uses as an integer
      (pain scores, angles, session counts, minutes, millisecond time
      stamps) is a [Z].  An average ([sum / length]) is an exact rational
      [Q]; a product with the literal [0.6] is the exact rational product
      with [6/10], which agrees with IEEE double arithmetic after
      [Math.floor] / [Math.ceil] on every integer of magnitude below 2^50
      (the double nearest to 0.6 is off by a relative 2^-54 * 2/3, less
      than half an ulp of the product).
    - String-typed unions that the code compares against arbitrary strings
      (range-of-motion buckets, cardio types) stay [string]s; closed unions
      that are only switched on are inductive types.
    - Date strings are represented by the millisecond time stamp that
      [new Date(str).getTime()] yields; an absent or empty date string is
      [None].
    - The clock ([new Date()]) and the exercise catalog module
      ([./exercises], whose text is not part of the verified sources) are
      the planner's environment: a record [Env] passed to the functions
      that read them, so every theorem holds at every instant and for
      every catalog. *)

From Stdlib Require Import ZArith QArith Qround List String Ascii Bool Lia.
From Stdlib Require Import DecimalString Sorted Permutation.
Import ListNotations.

Open Scope string_scope.
Open Scope list_scope.
Open Scope Z_scope.

(** ** JavaScript built-ins used by the planner *)

Module JS.

(** [arr.slice(-n)]: the last [n] elements (all of them when there are
    fewer). *)
Definition slice_last {A : Type} (n : nat) (arr : list A) : list A :=
  skipn (List.length arr - n) arr.

(** [arr.slice(0, n)]. *)
Definition slice_first {A : Type} (n : nat) (arr : list A) : list A :=
  firstn n arr.

(** [arr[arr.length - 1]]: [undefined] (here [None]) on an empty array. *)
Definition last_elem {A : Type} (arr : list A) : option A :=
  nth_error arr (List.length arr - 1).

(** [arr.push(x)], as a value. *)
Definition push {A : Type} (arr : list A) (x : A) : list A := arr ++ [x].

(** [arr.includes(s)] on an array of strings. *)
Definition includes (arr : list string) (s : string) : bool :=
  existsb (String.eqb s) arr.

(** [arr.find(p)]. *)
Definition find {A : Type} (p : A -> bool) (arr : list A) : option A :=
  List.find p arr.

(** [a || b] on possibly-undefined array elements. *)
Definition or_else {A : Type} (a b : option A) : option A :=
  match a with Some _ => a | None => b end.

(** [s.includes(sub)]. *)
Fixpoint str_includes (sub s : string) : bool :=
  String.prefix sub s ||
  match s with
  | EmptyString => false
  | String _ s' => str_includes sub s'
  end.

Fixpoint str_drop (n : nat) (s : string) : string :=
  match n, s with
  | O, _ => s
  | S n', String _ s' => str_drop n' s'
  | S _, EmptyString => EmptyString
  end.

(** [s.replace(pat, rep)] with a string pattern: the first occurrence only. *)
Fixpoint str_replace (pat rep s : string) : string :=
  if String.prefix pat s then String.append rep (str_drop (String.length pat) s)
  else match s with
       | EmptyString => EmptyString
       | String c s' => String c (str_replace pat rep s')
       end.

(** [s.split(sep)[0]] for a one-character separator: the text before the
    first separator. *)
Fixpoint split_head (sep : ascii) (s : string) : string :=
  match s with
  | EmptyString => EmptyString
  | String c s' => if Ascii.eqb c sep then EmptyString else String c (split_head sep s')
  end.

(** [s || d] where [s] is a possibly-undefined string: the empty string is
    falsy. *)
Definition str_or (s : option string) (d : string) : string :=
  match s with
  | Some (String c s') => String c s'
  | _ => d
  end.

(** Truthiness of a possibly-undefined string. *)
Definition truthy (s : option string) : bool :=
  match s with
  | Some (String _ _) => true
  | _ => false
  end.

(** A number that may be [NaN] (the result of [parseInt]). *)
Inductive num : Type :=
| Num (z : Z)
| NaN.

Definition isWhiteSpace (c : ascii) : bool :=
  let n := Z.of_nat (nat_of_ascii c) in
  ((9 <=? n) && (n <=? 13)) || (n =? 32).

Fixpoint trimStart (s : string) : string :=
  match s with
  | String c s' => if isWhiteSpace c then trimStart s' else s
  | EmptyString => s
  end.

(** Value of a character as a digit (0-9, then letters for 10-35). *)
Definition digitValue (c : ascii) : option Z :=
  let n := Z.of_nat (nat_of_ascii c) in
  if (48 <=? n) && (n <=? 57) then Some (n - 48)
  else if (97 <=? n) && (n <=? 122) then Some (n - 87)
  else if (65 <=? n) && (n <=? 90) then Some (n - 55)
  else None.

(** The longest prefix of radix-[r] digits, as [Some value], or [None] when
    it is empty. *)
Fixpoint readDigits (r : Z) (s : string) (acc : option Z) : option Z :=
  match s with
  | EmptyString => acc
  | String c s' =>
      match digitValue c with
      | Some d =>
          if d <? r
          then readDigits r s' (Some (match acc with Some a => a * r + d | None => d end))
          else acc
      | None => acc
      end
  end.

(** [parseInt(s)] without a radix argument: leading white space, an
    optional sign, an optional [0x] prefix, then digits. *)
Definition parseInt (s : string) : num :=
  let s1 := trimStart s in
  let '(sign, s2) :=
    match s1 with
    | String "-" t => (-1, t)
    | String "+" t => (1, t)
    | _ => (1, s1)
    end in
  let '(radix, s3) :=
    match s2 with
    | String "0" (String "x" t) => (16, t)
    | String "0" (String "X" t) => (16, t)
    | _ => (10, s2)
    end in
  match readDigits radix s3 None with
  | Some v => Num (sign * v)
  | None => NaN
  end.

(** Template-literal rendering of an integer. *)
Definition toString (z : Z) : string :=
  NilZero.string_of_int (Z.to_int z).

(** [c.toUpperCase()] on one ASCII character. *)
Definition toUpperCase (c : ascii) : ascii :=
  let n := nat_of_ascii c in
  if (97 <=? Z.of_nat n) && (Z.of_nat n <=? 122) then ascii_of_nat (n - 32) else c.

(** [s.charAt(0).toUpperCase() + s.slice(1)]. *)
Definition capitalize (s : string) : string :=
  match s with
  | EmptyString => EmptyString
  | String c s' => String (toUpperCase c) s'
  end.

(** Stable sort with a comparator, as [Array.prototype.sort] is specified
    since ES2019: an element is placed before the first element of the
    already sorted tail that it does not compare greater than. *)
Section Sort.
Context {A : Type} (cmp : A -> A -> Z).

Fixpoint insert_by (x : A) (l : list A) : list A :=
  match l with
  | [] => [x]
  | y :: l' => if cmp x y <=? 0 then x :: y :: l' else y :: insert_by x l'
  end.

Fixpoint sort (l : list A) : list A :=
  match l with
  | [] => []
  | x :: l' => insert_by x (sort l')
  end.

End Sort.

End JS.

(** ** Data model ([src/types/index.ts]) *)

Inductive SurgeryStatus : Type := SurgeryNone | SurgeryPlanned | PostOp.

Inductive RecoveryStage : Type := Acute | EarlyRehab | Strengthening | ReturnToSport.

Inductive ExternalRotationLimit : Type := LimitNone | Mild | Moderate | Severe.

Inductive GoalType : Type :=
| HalfMarathon | TenK | FiveK | GeneralConditioning | Strength | WeightLoss
| MaintainFitness.

(** [CardioType], [FlexionBucket] and [AbductionBucket] are strings: the
    code tests them against strings computed from exercise identifiers and
    gives unknown buckets a default. *)
Definition CardioType : Type := string.
Definition Bucket : Type := string.

Record Restrictions : Type := {
  inSling : bool;
  noRunning : bool;
  noOverhead : bool;
  maxAbductionAngle : Z;
  maxFlexionAngle : Z;
  externalRotationLimit : ExternalRotationLimit
}.

Record CardioBaseline : Type := {
  canBikeMinutes : Z;
  canWalkMinutes : Z;
  canRunMinutes : Z
}.

Record FitnessGoal : Type := {
  goalType : GoalType;            (* goal.type *)
  targetDate : option Z;
  daysPerWeek : Z;
  minutesPerDay : Z;
  cardioBaseline : CardioBaseline
}.

Record UserProfile : Type := {
  injuryDate : Z;
  surgeryStatus : SurgeryStatus;
  surgeryDate : option Z;
  restrictions : Restrictions;
  goal : FitnessGoal;
  createdAt : Z
}.

Record DailyLog : Type := {
  date : Z;                       (* calendar day of the check-in *)
  pain : Z;
  instability : Z;
  sleepImpact : Z;
  flexionBucket : Bucket;
  abductionBucket : Bucket;
  slingWorn : bool;
  didRehab : bool;
  didCardio : bool;
  didStrength : bool
}.

Inductive Category : Type := CatRehab | CatMobility | CatCardio | CatStrength.

Inductive TargetArea : Type := Shoulder | Core | Legs | FullBody.

Record Exercise : Type := {
  id : string;
  name : string;
  category : Category;
  targetArea : TargetArea;
  difficulty : Z;
  requiresOverhead : bool;
  requiresShoulderLoading : bool;
  requiresExternalRotation : bool;
  minAbductionAngle : Z;
  minFlexionAngle : Z;
  sets : option string;
  reps : option string;
  duration : option string
}.

Record WorkoutExercise : Type := {
  exercise : Exercise;
  we_sets : JS.num;               (* sets *)
  we_reps : option JS.num;        (* reps *)
  we_duration : option string     (* duration *)
}.

(** [RehabWorkout] without [id] (a clock reading) and [totalDuration] (a
    floating-point sum). *)
Record RehabWorkout : Type := {
  rw_name : string;               (* name *)
  stage : RecoveryStage;
  rw_exercises : list WorkoutExercise;   (* exercises *)
  rw_notes : option string        (* notes *)
}.

Inductive WorkoutType : Type := TCardio | TLegs | TCore | TMobility | TMixed.

Inductive Intensity : Type := IEasy | IModerate | IHard.

Record FitnessWorkout : Type := {
  fw_id : string;                 (* id *)
  fw_name : string;               (* name *)
  fw_type : WorkoutType;          (* type *)
  fw_exercises : list WorkoutExercise;   (* exercises *)
  totalDuration : string;
  cardioType : option CardioType;
  intensity : Intensity
}.

(** An entry of [WeeklyPlan.workouts]; the planner always fills [fitness]
    and never [rehab]. *)
Record DayWorkout : Type := {
  day : Z;
  fitness : FitnessWorkout
}.

(** [WeeklyPlan] without [startDate] (a rendering of the clock). *)
Record WeeklyPlan : Type := {
  weekNumber : Z;
  workouts : list DayWorkout;
  totalCardioMinutes : Z;
  totalStrengthSessions : Z
}.

Record AllowedActivities : Type := {
  cardio : list CardioType;
  strength : list string;
  canDoOverhead : bool;
  canDoHeavyCarries : bool;
  canDoPullUps : bool;
  isDeloadWeek : bool;
  notes : list string
}.

(** The planner's environment: the clock and the catalog accessors imported
    from [./exercises]. *)
Record Env : Type := {
  now : Z;                                  (* new Date().getTime() *)
  getRehabExercises : list Exercise;
  getCardioExercises : list Exercise;
  getStrengthExercises : list Exercise
}.

(** ** The rules engine ([src/lib/rules-engine.ts]) *)

Definition bucketToAngle (bucket : Bucket) : Z :=
  if String.eqb bucket "<60" then 30
  else if String.eqb bucket "60-90" then 75
  else if String.eqb bucket "90-120" then 105
  else if String.eqb bucket "120-150" then 135
  else if String.eqb bucket "150+" then 165
  else 0.

Definition WEEK_MS : Z := 7 * 24 * 60 * 60 * 1000.
Definition DAY_MS : Z := 24 * 60 * 60 * 1000.

Definition weeksSince (env : Env) (dateStr : Z) : Z :=
  let diffMs := now env - dateStr in
  diffMs / WEEK_MS.

Definition daysUntil (env : Env) (dateStr : Z) : Z :=
  let diffMs := dateStr - now env in
  diffMs / DAY_MS.

(** [logs.reduce((sum, l) => sum + l.pain, 0) / logs.length]. *)
Definition sumPain (logs : list DailyLog) : Z :=
  fold_left (fun sum l => sum + pain l) logs 0.

Definition meanPain (logs : list DailyLog) : Q :=
  inject_Z (sumPain logs) / inject_Z (Z.of_nat (List.length logs)).

(** *** currentRecoveryStage *)

(** The local [weeksRecovering]: [weeksSinceSurgery ?? weeksSinceInjury],
    where [weeksSinceSurgery] is [null] exactly when the profile has no
    surgery date. *)
Definition weeksRecovering (env : Env) (profile : UserProfile) : Z :=
  let weeksSinceInjury := weeksSince env (injuryDate profile) in
  let weeksSinceSurgery :=
    match surgeryDate profile with
    | Some d => Some (weeksSince env d)
    | None => None
    end in
  match weeksSinceSurgery with
  | Some w => w
  | None => weeksSinceInjury
  end.

(** The locals [recentLogs], [avgPain] and [latestLog]. *)
Definition recentLogs (logs : list DailyLog) : list DailyLog :=
  JS.slice_last 7 logs.

Definition avgPain (logs : list DailyLog) : Q :=
  let recent := recentLogs logs in
  if (0 <? List.length recent)%nat then meanPain recent else inject_Z 5.

Definition stageLatestLog (logs : list DailyLog) : option DailyLog :=
  JS.last_elem (recentLogs logs).

Definition currentRecoveryStage (env : Env) (profile : UserProfile)
    (logs : list DailyLog) : RecoveryStage :=
  let weeksRecovering := weeksRecovering env profile in
  let avgPain := avgPain logs in
  let latestLog := stageLatestLog logs in
  let latestFlexion :=
    match latestLog with Some l => bucketToAngle (flexionBucket l) | None => 30 end in
  let latestAbduction :=
    match latestLog with Some l => bucketToAngle (abductionBucket l) | None => 30 end in
  if (weeksRecovering <=? 2) || inSling (restrictions profile)
     || Qle_bool (inject_Z 7) avgPain
  then Acute
  else if (weeksRecovering <=? 6) || (latestFlexion <? 90) || (latestAbduction <? 90)
          || Qle_bool (inject_Z 5) avgPain
  then EarlyRehab
  else if (weeksRecovering <=? 12) || (latestFlexion <? 150) || (latestAbduction <? 150)
  then Strengthening
  else ReturnToSport.

(** *** allowedActivities *)

(** [!latestLog || p(latestLog)]. *)
Definition noLogOr (latestLog : option DailyLog) (p : DailyLog -> bool) : bool :=
  match latestLog with
  | None => true
  | Some l => p l
  end.

Definition allowedActivities (profile : UserProfile) (latestLog : option DailyLog)
    : AllowedActivities :=
  let restrictions := restrictions profile in
  let cardio : list CardioType := [] in
  let strength : list string := [] in
  let notes : list string := [] in
  let isDeloadWeek :=
    match latestLog with
    | None => false
    | Some l => (7 <=? pain l) || (7 <=? instability l) || (8 <=? sleepImpact l)
    end in
  let notes :=
    if isDeloadWeek
    then JS.push notes "Deload week: reduce intensity, focus on recovery"
    else notes in
  let cardio := JS.push cardio "walk" in
  let cardio := JS.push cardio "bike" in
  let cardio :=
    if negb (inSling restrictions) then JS.push cardio "elliptical" else cardio in
  let '(cardio, notes) :=
    if negb (noRunning restrictions) && negb (inSling restrictions) then
      if noLogOr latestLog (fun l => (pain l <=? 5) && (instability l <=? 5))
      then (JS.push cardio "run", notes)
      else (cardio, JS.push notes "Running paused due to pain/instability levels")
    else (cardio, notes) in
  let cardio :=
    if 60 <=? maxFlexionAngle restrictions then JS.push cardio "swim" else cardio in
  let '(cardio, notes) :=
    if negb (inSling restrictions)
       && (60 <=? maxAbductionAngle restrictions)
       && (90 <=? maxFlexionAngle restrictions)
       && noLogOr latestLog (fun l => pain l <=? 3)
    then (JS.push cardio "row",
          JS.push notes "Light rowing only - stop if shoulder discomfort")
    else (cardio, notes) in
  let strength := JS.push strength "legs" in
  let strength :=
    if (60 <=? maxFlexionAngle restrictions) || negb (inSling restrictions)
    then JS.push strength "core" else strength in
  let canDoOverhead :=
    negb (noOverhead restrictions)
    && (120 <=? maxAbductionAngle restrictions)
    && (120 <=? maxFlexionAngle restrictions)
    && noLogOr latestLog (fun l => pain l <=? 3) in
  let canDoHeavyCarries :=
    negb (inSling restrictions)
    && (90 <=? maxFlexionAngle restrictions)
    && noLogOr latestLog (fun l => pain l <=? 4) in
  let canDoPullUps :=
    negb (inSling restrictions)
    && (150 <=? maxAbductionAngle restrictions)
    && (150 <=? maxFlexionAngle restrictions)
    && match externalRotationLimit restrictions with LimitNone => true | _ => false end
    && noLogOr latestLog (fun l => (pain l <=? 2) && (instability l <=? 2)) in
  let '(strength, notes) :=
    if negb (inSling restrictions)
       && (90 <=? maxAbductionAngle restrictions)
       && noLogOr latestLog (fun l => pain l <=? 3)
    then (JS.push strength "upper-pull",
          JS.push notes "Upper body pulling: keep light, avoid overhead")
    else (strength, notes) in
  let '(strength, notes) :=
    if canDoOverhead
    then (JS.push strength "upper-push",
          JS.push notes "Overhead pressing cleared - start light")
    else (strength, notes) in
  {| cardio := cardio;
     strength := strength;
     canDoOverhead := canDoOverhead;
     canDoHeavyCarries := canDoHeavyCarries;
     canDoPullUps := canDoPullUps;
     isDeloadWeek := isDeloadWeek;
     notes := notes |}.

(** *** rehabPlan *)

(** The object literal that both plan generators build per exercise:
    [sets: parseInt(ex.sets?.split('-')[0] || '3')],
    [reps: ex.reps ? parseInt(ex.reps.split('-')[0] || dflt) : undefined],
    [duration: ex.duration]. *)
Definition toWorkoutExercise (dflt : string) (ex : Exercise) : WorkoutExercise :=
  {| exercise := ex;
     we_sets := JS.parseInt (JS.str_or (option_map (JS.split_head "-") (sets ex)) "3");
     we_reps :=
       if JS.truthy (reps ex)
       then Some (JS.parseInt (JS.str_or (option_map (JS.split_head "-") (reps ex)) dflt))
       else None;
     we_duration := duration ex |}.

Definition currentFlexion (latestLog : option DailyLog) : Z :=
  match latestLog with Some l => bucketToAngle (flexionBucket l) | None => 30 end.

Definition currentAbduction (latestLog : option DailyLog) : Z :=
  match latestLog with Some l => bucketToAngle (abductionBucket l) | None => 30 end.

(** [latestLog?.pain ?? 5]. *)
Definition currentPain (latestLog : option DailyLog) : Z :=
  match latestLog with Some l => pain l | None => 5 end.

Definition isAcute (s : RecoveryStage) : bool :=
  match s with Acute => true | _ => false end.

Definition isEarlyRehab (s : RecoveryStage) : bool :=
  match s with EarlyRehab => true | _ => false end.

(** The predicate of [rehabExercises.filter(...)]. *)
Definition rehabFilter (stage : RecoveryStage) (profile : UserProfile)
    (latestLog : option DailyLog) (ex : Exercise) : bool :=
  if currentFlexion latestLog <? minFlexionAngle ex then false
  else if currentAbduction latestLog <? minAbductionAngle ex then false
  else if requiresOverhead ex && noOverhead (restrictions profile) then false
  else if requiresOverhead ex && (currentFlexion latestLog <? 120) then false
  else if requiresShoulderLoading ex && inSling (restrictions profile) then false
  else if requiresExternalRotation ex
          && match externalRotationLimit (restrictions profile) with
             | Severe => true
             | _ => false
             end then false
  else if isAcute stage && (2 <? difficulty ex) then false
  else if isEarlyRehab stage && (3 <? difficulty ex) then false
  else if (6 <=? currentPain latestLog) && (2 <? difficulty ex) then false
  else true.

Definition exerciseCount (stage : RecoveryStage) : nat :=
  match stage with
  | Acute => 3
  | EarlyRehab => 4
  | Strengthening => 5
  | ReturnToSport => 6
  end%nat.

Definition targetDiff (stage : RecoveryStage) : Z :=
  if isAcute stage then 1 else if isEarlyRehab stage then 2 else 3.

(** The comparator handed to [sort]. *)
Definition byTargetDifficulty (stage : RecoveryStage) (a b : Exercise) : Z :=
  Z.abs (difficulty a - targetDiff stage) - Z.abs (difficulty b - targetDiff stage).

Definition stageString (stage : RecoveryStage) : string :=
  match stage with
  | Acute => "acute"
  | EarlyRehab => "early-rehab"
  | Strengthening => "strengthening"
  | ReturnToSport => "return-to-sport"
  end.

Definition rehabPlan (env : Env) (stage : RecoveryStage) (profile : UserProfile)
    (latestLog : option DailyLog) : RehabWorkout :=
  let rehabExercises := getRehabExercises env in
  let filteredExercises := filter (rehabFilter stage profile latestLog) rehabExercises in
  let sorted := JS.sort (byTargetDifficulty stage) filteredExercises in
  let selected := JS.slice_first (exerciseCount stage) sorted in
  let selectedExercises := map (toWorkoutExercise "10") selected in
  {| rw_name := String.append (JS.capitalize (stageString stage)) " Rehab Session";
     stage := stage;
     rw_exercises := selectedExercises;
     rw_notes :=
       if 5 <=? currentPain latestLog
       then Some "Go gentle today - pain is elevated" else None |}.

(** *** fitnessPlan *)

(** [Math.floor(x * 0.6)] and [Math.ceil(x * 0.6)] on an integer [x]. *)
Definition floor_times_06 (x : Z) : Z := Qfloor (inject_Z x * (6 # 10)).
Definition ceil_times_06 (x : Z) : Z := Qceiling (inject_Z x * (6 # 10)).

(** The [switch (goal.type)] that sets [targetCardioMinutes]. *)
Definition goalCardioMinutes (t : GoalType) (weekNumber : Z) : Z :=
  match t with
  | HalfMarathon => Z.min 180 (60 + weekNumber * 10)
  | TenK => Z.min 120 (45 + weekNumber * 8)
  | FiveK => Z.min 90 (30 + weekNumber * 6)
  | GeneralConditioning | MaintainFitness => 90
  | Strength => 60
  | WeightLoss => 150
  end.

Definition choosePrimaryCardio (allowed : AllowedActivities) : CardioType :=
  if JS.includes (cardio allowed) "run" then "run"
  else if JS.includes (cardio allowed) "bike" then "bike"
  else if JS.includes (cardio allowed) "elliptical" then "elliptical"
  else "walk".

Definition isShoulder (a : TargetArea) : bool :=
  match a with Shoulder => true | _ => false end.
Definition isLegs (a : TargetArea) : bool :=
  match a with Legs => true | _ => false end.
Definition isCore (a : TargetArea) : bool :=
  match a with Core => true | _ => false end.

Definition cardioFilter (allowed : AllowedActivities) (latestLog : option DailyLog)
    (ex : Exercise) : bool :=
  if negb (JS.includes (cardio allowed)
             (JS.str_replace "-light" "" (JS.str_replace "-no-arms" "" (id ex))))
  then false
  else if currentFlexion latestLog <? minFlexionAngle ex then false
  else true.

Definition strengthFilter (allowed : AllowedActivities) (profile : UserProfile)
    (latestLog : option DailyLog) (ex : Exercise) : bool :=
  if isShoulder (targetArea ex) then false
  else if requiresOverhead ex && negb (canDoOverhead allowed) then false
  else if requiresShoulderLoading ex && inSling (restrictions profile) then false
  else if currentFlexion latestLog <? minFlexionAngle ex then false
  else true.

(** The mutable locals of the scheduling loop. *)
Record Schedule : Type := {
  sch_workouts : list DayWorkout;
  cardioSessionsPlanned : Z;
  strengthSessionsPlanned : Z
}.

Section ScheduleLoop.

(** The constants of [fitnessPlan] that are in scope of its [for] loop. *)
Variables (profile : UserProfile) (allowed : AllowedActivities).
Variables (targetCardioMinutes workoutsPerWeek : Z).
Variables (primaryCardio : CardioType).
Variables (cardioExercises strengthExercises : list Exercise).
Variables (targetCardioSessions targetStrengthSessions : Z).

Definition cardioWorkout (day : Z) (cardioEx : Exercise) : FitnessWorkout :=
  let cardioMinutes := targetCardioMinutes / targetCardioSessions in
  {| fw_id := String.append "fitness-cardio-" (JS.toString day);
     fw_name := String.append (JS.capitalize primaryCardio) " Session";
     fw_type := TCardio;
     fw_exercises :=
       [ {| exercise := cardioEx;
            we_sets := JS.Num 1;
            we_reps := None;
            we_duration := Some (String.append (JS.toString cardioMinutes) " min") |} ];
     totalDuration := String.append (JS.toString cardioMinutes) " min";
     cardioType := Some primaryCardio;
     intensity := if isDeloadWeek allowed then IEasy else IModerate |}.

Definition strengthWorkout (day : Z) (selectedStrength : list Exercise)
    : FitnessWorkout :=
  {| fw_id := String.append "fitness-strength-" (JS.toString day);
     fw_name := "Legs & Core";
     fw_type := if day =? 1 then TLegs else TCore;
     fw_exercises := map (toWorkoutExercise "12") selectedStrength;
     totalDuration :=
       String.append (JS.toString (Z.min (minutesPerDay (goal profile)) 45)) " min";
     cardioType := None;
     intensity := if isDeloadWeek allowed then IEasy else IModerate |}.

(** One iteration of the loop body, for a [day] that passed the loop
    condition. *)
Definition scheduleDay (day : Z) (st : Schedule) : Schedule :=
  if (day =? 3) || (day =? 6) then st
  else
    let isCardioDay :=
      (day mod 2 =? 0) || (targetStrengthSessions <=? strengthSessionsPlanned st) in
    if isCardioDay && (cardioSessionsPlanned st <? targetCardioSessions) then
      let cardioEx :=
        JS.or_else
          (JS.find (fun e => JS.str_includes primaryCardio (id e)) cardioExercises)
          (nth_error cardioExercises 0) in
      match cardioEx with
      | Some ex =>
          {| sch_workouts :=
               JS.push (sch_workouts st)
                 {| day := day; fitness := cardioWorkout day ex |};
             cardioSessionsPlanned := cardioSessionsPlanned st + 1;
             strengthSessionsPlanned := strengthSessionsPlanned st |}
      | None => st
      end
    else if strengthSessionsPlanned st <? targetStrengthSessions then
      let legExercises :=
        JS.slice_first 3 (filter (fun e => isLegs (targetArea e)) strengthExercises) in
      let coreExercises :=
        JS.slice_first 2 (filter (fun e => isCore (targetArea e)) strengthExercises) in
      let selectedStrength := legExercises ++ coreExercises in
      if (0 <? List.length selectedStrength)%nat then
        {| sch_workouts :=
             JS.push (sch_workouts st)
               {| day := day; fitness := strengthWorkout day selectedStrength |};
           cardioSessionsPlanned := cardioSessionsPlanned st;
           strengthSessionsPlanned := strengthSessionsPlanned st + 1 |}
      else st
    else st.

(** [for (let day = ...; day < 7 && planned < workoutsPerWeek; day++)] over
    the days that remain. *)
Fixpoint scheduleLoop (days : list Z) (st : Schedule) : Schedule :=
  match days with
  | [] => st
  | day :: rest =>
      if cardioSessionsPlanned st + strengthSessionsPlanned st <? workoutsPerWeek
      then scheduleLoop rest (scheduleDay day st)
      else st
  end.

End ScheduleLoop.

Definition WEEK_DAYS : list Z := [0; 1; 2; 3; 4; 5; 6].

(** The third parameter [logs] is never read by the body, and neither are
    the locals [daysToGoal], [weeksToGoal] and [baseline], which are left
    out. *)
Definition fitnessPlan (env : Env) (profile : UserProfile)
    (latestLog : option DailyLog) (logs : list DailyLog) : WeeklyPlan :=
  let allowed := allowedActivities profile latestLog in
  let goal := goal profile in
  let weeksSinceStart := weeksSince env (createdAt profile) in
  let weekNumber := weeksSinceStart + 1 in
  let targetCardioMinutes := goalCardioMinutes (goalType goal) weekNumber in
  let targetCardioMinutes :=
    if isDeloadWeek allowed then floor_times_06 targetCardioMinutes
    else targetCardioMinutes in
  let workoutsPerWeek := Z.min (daysPerWeek goal) 6 in
  let primaryCardio := choosePrimaryCardio allowed in
  let cardioExercises :=
    filter (cardioFilter allowed latestLog) (getCardioExercises env) in
  let strengthExercises :=
    filter (strengthFilter allowed profile latestLog) (getStrengthExercises env) in
  let targetCardioSessions := ceil_times_06 workoutsPerWeek in
  let targetStrengthSessions := workoutsPerWeek - targetCardioSessions in
  let final :=
    scheduleLoop profile allowed targetCardioMinutes workoutsPerWeek primaryCardio
      cardioExercises strengthExercises targetCardioSessions targetStrengthSessions
      WEEK_DAYS
      {| sch_workouts := [];
         cardioSessionsPlanned := 0;
         strengthSessionsPlanned := 0 |} in
  {| weekNumber := weekNumber;
     workouts := sch_workouts final;
     totalCardioMinutes := targetCardioMinutes;
     totalStrengthSessions := strengthSessionsPlanned final |}.

(** *** Advisory functions *)

Definition suggestNextMilestone (profile : UserProfile) (latestLog : option DailyLog)
    : string :=
  match latestLog with
  | None => "Complete your first daily log to track progress"
  | Some l =>
      let flexion := bucketToAngle (flexionBucket l) in
      let abduction := bucketToAngle (abductionBucket l) in
      if flexion <? 90 then "Work toward forward flexion to 90 degrees"
      else if abduction <? 90 then "Work toward abduction to 90 degrees"
      else if flexion <? 120 then "Work toward forward flexion to 120 degrees"
      else if abduction <? 120 then "Work toward abduction to 120 degrees"
      else if slingWorn l then "First day without sling (when cleared by provider)"
      else if 3 <? sleepImpact l then "Work toward pain-free sleep"
      else if negb (noRunning (restrictions profile)) && (pain l <=? 3)
      then "First pain-free run"
      else "Continue strengthening toward full recovery"
  end.

Definition shouldProgress (logs : list DailyLog) : bool :=
  if (List.length logs <? 3)%nat then false
  else
    let recent := JS.slice_last 3 logs in
    let avgPain := meanPain recent in
    if negb (Qle_bool avgPain (inject_Z 3)) then false
    else
      (* [recent] has three entries here; an absent entry would throw *)
      match nth_error recent 0, JS.last_elem recent with
      | Some first, Some last =>
          let oldFlexion := bucketToAngle (flexionBucket first) in
          let newFlexion := bucketToAngle (flexionBucket last) in
          oldFlexion <=? newFlexion
      | _, _ => false
      end.

(** [getTodayWorkout].  [today] is [new Date().getDay()], the weekday of
    the clock in the local time zone (0 is Sunday); [todayWorkout?.fitness
    || null] is the [fitness] of the entry found, if any. *)
Definition getTodayWorkout (env : Env) (today : Z) (profile : UserProfile)
    (latestLog : option DailyLog) (logs : list DailyLog)
    : RehabWorkout * option FitnessWorkout :=
  let stage := currentRecoveryStage env profile logs in
  let rehab := rehabPlan env stage profile latestLog in
  let weekly := fitnessPlan env profile latestLog logs in
  let todayWorkout := JS.find (fun w => day w =? today) (workouts weekly) in
  (rehab, option_map fitness todayWorkout).

(** ** Callers of the rules engine ([src/app/(app)/rehab/page.tsx],
    [src/app/(app)/dashboard/page.tsx]) *)

(** The rehab page: [stage = currentRecoveryStage(profile, logs)],
    [latestLog = logs[0] || null], [plan = rehabPlan(stage, profile,
    latestLog)]. *)
Definition rehabPageWorkout (env : Env) (profile : UserProfile)
    (logs : list DailyLog) : RehabWorkout :=
  let stage := currentRecoveryStage env profile logs in
  let latestLog := hd_error logs in
  rehabPlan env stage profile latestLog.

(** The dashboard's pain trend: [painData] is the window oldest first. *)
Definition sumOf (data : list Z) : Z := fold_left (fun a b => a + b) data 0.

Definition meanOf (data : list Z) : Q :=
  inject_Z (sumOf data) / inject_Z (Z.of_nat (List.length data)).

Definition painData (logs : list DailyLog) : list Z := map pain (rev logs).

Definition painTrend (logs : list DailyLog) : Q :=
  let painData := painData logs in
  let recentPain := JS.slice_last 3 painData in
  let oldPain := JS.slice_first 3 painData in
  if (0 <? List.length recentPain)%nat && (0 <? List.length oldPain)%nat
  then (meanOf recentPain - meanOf oldPain)%Q
  else inject_Z 0.

(** ** Utilities ([src/lib/utils.ts]) *)

Module Utils.



End Utils.

(** ** The specification's readings, for comparison with the code *)

(** Weeks-recovering as the specification words it: the surgery date counts
    only for a post-op profile. *)
Definition spec_weeksRecovering (env : Env) (profile : UserProfile) : Z :=
  match surgeryStatus profile, surgeryDate profile with
  | PostOp, Some d => weeksSince env d
  | _, _ => weeksSince env (injuryDate profile)
  end.

(** A log window in the log store's order: by date, descending. *)
Definition dateDescending (logs : list DailyLog) : Prop :=
  StronglySorted (fun a b => date b < date a) logs.

(** The (at most) seven most recent logs of a date-descending window, and
    its most recent log. *)
Definition spec_recentLogs (logs : list DailyLog) : list DailyLog := firstn 7 logs.
Definition spec_latestLog (logs : list DailyLog) : option DailyLog := hd_error logs.

(** The weekly cardio target of the specification (section 4.5, step 3). *)
Definition spec_cardioTarget (t : GoalType) (weekNumber : Z) (deload : bool) : Z :=
  let ramp :=
    match t with
    | HalfMarathon => Z.min 180 (60 + weekNumber * 10)
    | TenK => Z.min 120 (45 + weekNumber * 8)
    | FiveK => Z.min 90 (30 + weekNumber * 6)
    | GeneralConditioning => 90
    | MaintainFitness => 90
    | Strength => 60
    | WeightLoss => 150
    end in
  if deload then Qfloor (inject_Z ramp * (6 # 10)) else ramp.

Definition isCardioWorkout (w : DayWorkout) : bool :=
  match fw_type (fitness w) with TCardio => true | _ => false end.

(** [plan.workouts.filter(w => w.fitness?.type === 'cardio')], as the test
    suite selects the cardio sessions of a plan. *)
Definition cardioWorkouts (plan : WeeklyPlan) : list DayWorkout :=
  filter isCardioWorkout (workouts plan).

(** Minutes actually scheduled: the sum of the cardio sessions' durations. *)
Definition scheduledCardioMinutes (plan : WeeklyPlan) : Z :=
  fold_left
    (fun sum w =>
       match JS.parseInt (totalDuration (fitness w)) with
       | JS.Num m => sum + m
       | JS.NaN => sum
       end)
    (cardioWorkouts plan) 0.

(** ** Sample data for concrete evaluations

    The catalog below is a stand-in with the shape of the application's
    catalog; the shapes of the profile and of the log follow the mock
    objects of the test suite. *)

Definition mkExercise (i : string) (c : Category) (a : TargetArea) (d : Z)
    (oh ld er : bool) (minAbd minFlex : Z) (s r du : option string) : Exercise :=
  {| id := i; name := i; category := c; targetArea := a; difficulty := d;
     requiresOverhead := oh; requiresShoulderLoading := ld;
     requiresExternalRotation := er;
     minAbductionAngle := minAbd; minFlexionAngle := minFlex;
     sets := s; reps := r; duration := du |}.

Definition sampleRehab : list Exercise :=
  [ mkExercise "pendulum" CatRehab Shoulder 1 false false false 0 0
      (Some "2-3") None (Some "30 seconds");
    mkExercise "wall-slide" CatRehab Shoulder 3 true false false 60 90
      (Some "3") (Some "10-12") None;
    mkExercise "scap-squeeze" CatRehab Shoulder 1 false false false 0 0
      (Some "3") (Some "10-15") None;
    mkExercise "band-er" CatRehab Shoulder 2 false true true 0 30
      (Some "3") (Some "12") None;
    mkExercise "prone-y" CatRehab Shoulder 4 true true false 120 120
      (Some "3") (Some "8-10") None;
    mkExercise "table-slide" CatRehab Shoulder 2 false false false 0 30
      (Some "2") (Some "10") None;
    mkExercise "isometric-flexion" CatRehab Shoulder 1 false false false 0 0
      (Some "3") None (Some "10 seconds");
    mkExercise "push-up-plus" CatRehab Shoulder 5 false true false 90 90
      (Some "3") (Some "8") None ].

Definition sampleCardio : list Exercise :=
  [ mkExercise "walk" CatCardio Legs 1 false false false 0 0 None None (Some "20-60 min");
    mkExercise "bike" CatCardio Legs 2 false false false 0 0 None None (Some "20-60 min");
    mkExercise "run" CatCardio FullBody 3 false false false 0 0 None None (Some "15-45 min");
    mkExercise "swim-no-arms" CatCardio Legs 2 false false false 0 60 None None
      (Some "15-30 min");
    mkExercise "row-light" CatCardio FullBody 3 false true false 60 90 None None
      (Some "10-20 min") ].

Definition sampleStrength : list Exercise :=
  [ mkExercise "squat" CatStrength Legs 2 false false false 0 0 (Some "3") (Some "10-12") None;
    mkExercise "lunge" CatStrength Legs 2 false false false 0 0 (Some "3") (Some "10") None;
    mkExercise "plank" CatStrength Core 2 false true false 0 90 (Some "3") None
      (Some "30 seconds");
    mkExercise "dead-bug" CatStrength Core 1 false false false 0 0 (Some "3") (Some "10") None;
    mkExercise "shoulder-press" CatStrength Shoulder 4 true true false 120 120
      (Some "3") (Some "8") None ].

(** A clock set 1000 days after the epoch. *)
Definition sampleNow : Z := 1000 * DAY_MS.

Definition sampleEnv : Env :=
  {| now := sampleNow;
     getRehabExercises := sampleRehab;
     getCardioExercises := sampleCardio;
     getStrengthExercises := sampleStrength |}.

Definition daysAgo (n : Z) : Z := sampleNow - n * DAY_MS.

Definition mockRestrictions : Restrictions :=
  {| inSling := false; noRunning := false; noOverhead := true;
     maxAbductionAngle := 90; maxFlexionAngle := 90;
     externalRotationLimit := Moderate |}.

Definition mockGoal : FitnessGoal :=
  {| goalType := GeneralConditioning; targetDate := None;
     daysPerWeek := 4; minutesPerDay := 45;
     cardioBaseline :=
       {| canBikeMinutes := 30; canWalkMinutes := 30; canRunMinutes := 0 |} |}.

Definition mockProfile : UserProfile :=
  {| injuryDate := daysAgo 30; surgeryStatus := SurgeryNone; surgeryDate := None;
     restrictions := mockRestrictions; goal := mockGoal; createdAt := sampleNow |}.

Definition mockLog : DailyLog :=
  {| date := 1000; pain := 4; instability := 3; sleepImpact := 3;
     flexionBucket := "90-120"; abductionBucket := "60-90";
     slingWorn := false; didRehab := true; didCardio := true; didStrength := false |}.

Definition logWith (d p : Z) (flex abd : Bucket) : DailyLog :=
  {| date := d; pain := p; instability := 3; sleepImpact := 3;
     flexionBucket := flex; abductionBucket := abd;
     slingWorn := false; didRehab := true; didCardio := true; didStrength := false |}.

(** A profile injured 100 days ago whose surgery is planned two weeks
    ahead, and the same profile without the surgery date. *)
Definition plannedSurgeryProfile : UserProfile :=
  {| injuryDate := daysAgo 100; surgeryStatus := SurgeryPlanned;
     surgeryDate := Some (daysAgo (-14));
     restrictions := mockRestrictions; goal := mockGoal; createdAt := sampleNow |}.

Definition noSurgeryDateProfile : UserProfile :=
  {| injuryDate := daysAgo 100; surgeryStatus := SurgeryPlanned;
     surgeryDate := None;
     restrictions := mockRestrictions; goal := mockGoal; createdAt := sampleNow |}.

(** A profile injured 100 days ago, never operated. *)
Definition recoveredProfile : UserProfile :=
  {| injuryDate := daysAgo 100; surgeryStatus := SurgeryNone; surgeryDate := None;
     restrictions := mockRestrictions; goal := mockGoal; createdAt := sampleNow |}.

Definition fullRomLog : DailyLog := logWith 1000 1 "150+" "150+".
Definition lowRomLog : DailyLog := logWith 999 1 "<60" "<60".

(** A two-entry window as the log store returns it: most recent first. *)
Definition descendingWindow : list DailyLog := [fullRomLog; lowRomLog].

(** An eight-entry window, most recent first: pain 0 on the last day after
    seven days of pain 8. *)
Definition painfulWeekWindow : list DailyLog :=
  [ logWith 1000 0 "150+" "150+"; logWith 999 8 "150+" "150+";
    logWith 998 8 "150+" "150+"; logWith 997 8 "150+" "150+";
    logWith 996 8 "150+" "150+"; logWith 995 8 "150+" "150+";
    logWith 994 8 "150+" "150+"; logWith 993 8 "150+" "150+" ].

(** The profile of the test "uses bike when running is restricted". *)
Definition noRunningProfile : UserProfile :=
  {| injuryDate := daysAgo 30; surgeryStatus := SurgeryNone; surgeryDate := None;
     restrictions :=
       {| inSling := false; noRunning := true; noOverhead := true;
          maxAbductionAngle := 90; maxFlexionAngle := 90;
          externalRotationLimit := Moderate |};
     goal :=
       {| goalType := HalfMarathon; targetDate := None;
          daysPerWeek := 4; minutesPerDay := 45;
          cardioBaseline := cardioBaseline mockGoal |};
     createdAt := sampleNow |}.

(** A profile that asks for six training days per week. *)
Definition sixDayProfile : UserProfile :=
  {| injuryDate := daysAgo 30; surgeryStatus := SurgeryNone; surgeryDate := None;
     restrictions := mockRestrictions;
     goal :=
       {| goalType := GeneralConditioning; targetDate := None;
          daysPerWeek := 6; minutesPerDay := 45;
          cardioBaseline := cardioBaseline mockGoal |};
     createdAt := sampleNow |}.

Definition highPainLog : DailyLog := logWith 1000 8 "90-120" "60-90".
Definition lowPainLog : DailyLog := logWith 1000 2 "90-120" "60-90".
Definition improvedLog : DailyLog := logWith 1000 2 "120-150" "60-90".
Definition moderatePainLog : DailyLog := logWith 1000 5 "90-120" "60-90".

(** A profile in a sling, and a profile cleared for everything. *)
Definition slingProfile : UserProfile :=
  {| injuryDate := daysAgo 100; surgeryStatus := SurgeryNone; surgeryDate := None;
     restrictions :=
       {| inSling := true; noRunning := false; noOverhead := false;
          maxAbductionAngle := 150; maxFlexionAngle := 150;
          externalRotationLimit := LimitNone |};
     goal := mockGoal; createdAt := sampleNow |}.

Definition clearedProfile : UserProfile :=
  {| injuryDate := daysAgo 100; surgeryStatus := SurgeryNone; surgeryDate := None;
     restrictions :=
       {| inSling := false; noRunning := false; noOverhead := false;
          maxAbductionAngle := 150; maxFlexionAngle := 150;
          externalRotationLimit := LimitNone |};
     goal := mockGoal; createdAt := sampleNow |}.

(** The sample environment 100 days later. *)
Definition laterEnv : Env :=
  {| now := sampleNow + 100 * DAY_MS;
     getRehabExercises := sampleRehab;
     getCardioExercises := sampleCardio;
     getStrengthExercises := sampleStrength |}.

(** ** Vocabulary of the proofs *)

(** The fixed rest days of the weekly schedule. *)
Definition restDay (d : Z) : bool := (d =? 3) || (d =? 6).

(** What one iteration of the scheduling loop may add on day [d]: a workout
    for that day, which is not a rest day; a cardio workout carries the
    primary cardio type. *)
Definition addedOn (primaryCardio : CardioType) (d : Z) (w : DayWorkout) : Prop :=
  day w = d /\ restDay d = false /\
  (isCardioWorkout w = true -> cardioType (fitness w) = Some primaryCardio).

(** The order of the stages, least to most recovered. *)
Inductive stage_le : RecoveryStage -> RecoveryStage -> Prop :=
| stage_le_refl s : stage_le s s
| stage_le_acute s : stage_le Acute s
| stage_le_early_str : stage_le EarlyRehab Strengthening
| stage_le_early_rts : stage_le EarlyRehab ReturnToSport
| stage_le_str_rts : stage_le Strengthening ReturnToSport.

Ltac case_ifs :=
  repeat match goal with
         | |- context [if ?c then _ else _] => destruct c
         end.

(** Case analysis on the guards of [allowedActivities]: first the guards
    that feed a pair of arrays, then the remaining ones. *)
Ltac allowed_cases :=
  unfold allowedActivities;
  repeat match goal with
         | |- context [let '(_, _) := (if ?c then _ else _) in _] => destruct c
         end;
  simpl;
  repeat match goal with
         | |- context [if ?c then _ else _] => destruct c; simpl
         end.

Ltac case_ifs_simpl :=
  repeat match goal with
         | |- context [if ?c then _ else _] => destruct c eqn:?; simpl
         end.

Definition RUN_PAUSED_NOTE : string := "Running paused due to pain/instability levels".

(** The shape of the stage cascade: the first guard that holds decides. *)
Definition cascade (acute early strengthening : bool) : RecoveryStage :=
  if acute then Acute
  else if early then EarlyRehab
  else if strengthening then Strengthening
  else ReturnToSport.

(** The ranking key of [rehabPlan]: the distance of an exercise's
    difficulty from the stage's target difficulty. *)
Definition targetDistance (stage : RecoveryStage) (ex : Exercise) : Z :=
  Z.abs (difficulty ex - targetDiff stage).

(** The exercises of the rehab catalog that pass the filter of
    [rehabPlan]. *)
Definition eligibleRehab (env : Env) (stage : RecoveryStage) (profile : UserProfile)
    (latestLog : option DailyLog) : list Exercise :=
  filter (rehabFilter stage profile latestLog) (getRehabExercises env).

(** The exercises a strength session is built from, and the exercise a
    cardio session is built from: the expressions of the loop body. *)
Definition selectedStrength (strengthExercises : list Exercise) : list Exercise :=
  JS.slice_first 3 (filter (fun e => isLegs (targetArea e)) strengthExercises)
  ++ JS.slice_first 2 (filter (fun e => isCore (targetArea e)) strengthExercises).

Definition chosenCardio (primaryCardio : CardioType) (cardioExercises : list Exercise)
    : option Exercise :=
  JS.or_else
    (JS.find (fun e => JS.str_includes primaryCardio (id e)) cardioExercises)
    (nth_error cardioExercises 0).

(** The constants of [fitnessPlan], by name. *)
Definition planCardioExercises (env : Env) (profile : UserProfile)
    (latestLog : option DailyLog) : list Exercise :=
  filter (cardioFilter (allowedActivities profile latestLog) latestLog)
    (getCardioExercises env).

Definition planStrengthExercises (env : Env) (profile : UserProfile)
    (latestLog : option DailyLog) : list Exercise :=
  filter (strengthFilter (allowedActivities profile latestLog) profile latestLog)
    (getStrengthExercises env).

Definition planWorkoutsPerWeek (profile : UserProfile) : Z :=
  Z.min (daysPerWeek (goal profile)) 6.

Definition planCardioSessions (profile : UserProfile) : Z :=
  ceil_times_06 (planWorkoutsPerWeek profile).

Definition planStrengthSessions (profile : UserProfile) : Z :=
  planWorkoutsPerWeek profile - planCardioSessions profile.

Definition strengthWorkouts (plan : WeeklyPlan) : list DayWorkout :=
  filter (fun w => negb (isCardioWorkout w)) (workouts plan).

(** The counters of the scheduling loop count the workouts scheduled so
    far and stay within the quotas. *)
Definition countersOk (workoutsPerWeek targetCardioSessions targetStrengthSessions : Z)
    (st : Schedule) : Prop :=
  cardioSessionsPlanned st
  = Z.of_nat (List.length (filter isCardioWorkout (sch_workouts st)))
  /\ strengthSessionsPlanned st
     = Z.of_nat (List.length
                   (filter (fun w => negb (isCardioWorkout w)) (sch_workouts st)))
  /\ cardioSessionsPlanned st <= Z.max 0 targetCardioSessions
  /\ strengthSessionsPlanned st <= Z.max 0 targetStrengthSessions
  /\ cardioSessionsPlanned st + strengthSessionsPlanned st <= Z.max 0 workoutsPerWeek.

Definition planCardioMinutes (env : Env) (profile : UserProfile)
    (latestLog : option DailyLog) : Z :=
  let target :=
    goalCardioMinutes (goalType (goal profile))
      (weeksSince env (createdAt profile) + 1) in
  if isDeloadWeek (allowedActivities profile latestLog)
  then floor_times_06 target else target.

(** The state in which the scheduling loop of [fitnessPlan] ends. *)
Definition planFinal (env : Env) (profile : UserProfile)
    (latestLog : option DailyLog) : Schedule :=
  scheduleLoop profile (allowedActivities profile latestLog)
    (planCardioMinutes env profile latestLog) (planWorkoutsPerWeek profile)
    (choosePrimaryCardio (allowedActivities profile latestLog))
    (planCardioExercises env profile latestLog)
    (planStrengthExercises env profile latestLog)
    (planCardioSessions profile) (planStrengthSessions profile)
    WEEK_DAYS
    {| sch_workouts := []; cardioSessionsPlanned := 0; strengthSessionsPlanned := 0 |}.

(** The shapes of the two kinds of session of a weekly plan. *)
Definition isPlanCardio (env : Env) (profile : UserProfile)
    (latestLog : option DailyLog) (w : DayWorkout) : Prop :=
  exists ex,
    chosenCardio (choosePrimaryCardio (allowedActivities profile latestLog))
      (planCardioExercises env profile latestLog) = Some ex
    /\ w = {| day := day w;
              fitness :=
                cardioWorkout (allowedActivities profile latestLog)
                  (planCardioMinutes env profile latestLog)
                  (choosePrimaryCardio (allowedActivities profile latestLog))
                  (planCardioSessions profile) (day w) ex |}.

Definition isPlanStrength (env : Env) (profile : UserProfile)
    (latestLog : option DailyLog) (w : DayWorkout) : Prop :=
  selectedStrength (planStrengthExercises env profile latestLog) <> []
  /\ w = {| day := day w;
            fitness :=
              strengthWorkout profile (allowedActivities profile latestLog) (day w)
                (selectedStrength (planStrengthExercises env profile latestLog)) |}.

(** ** Facts about the built-ins *)

Lemma includes_In (arr : list string) (s : string) :
  JS.includes arr s = true <-> In s arr.
Proof.
  unfold JS.includes. rewrite existsb_exists. split.
  - intros [x [Hin Heq]]. apply String.eqb_eq in Heq. now subst.
  - intros Hin. exists s. split; [assumption | apply String.eqb_refl].
Qed.

Lemma includes_push (arr : list string) (x s : string) :
  JS.includes (JS.push arr x) s = JS.includes arr s || String.eqb s x.
Proof.
  unfold JS.includes, JS.push. rewrite existsb_app. simpl.
  now rewrite orb_false_r.
Qed.

Lemma insert_by_length {A : Type} (cmp : A -> A -> Z) (x : A) (l : list A) :
  List.length (JS.insert_by cmp x l) = S (List.length l).
Proof.
  induction l as [| y l IH]; simpl.
  - reflexivity.
  - destruct (cmp x y <=? 0); simpl; [reflexivity | now rewrite IH].
Qed.

Lemma sort_length {A : Type} (cmp : A -> A -> Z) (l : list A) :
  List.length (JS.sort cmp l) = List.length l.
Proof.
  induction l as [| x l IH]; simpl.
  - reflexivity.
  - now rewrite insert_by_length, IH.
Qed.

Lemma insert_by_In {A : Type} (cmp : A -> A -> Z) (x y : A) (l : list A) :
  In y (JS.insert_by cmp x l) <-> y = x \/ In y l.
Proof.
  induction l as [| z l IH]; simpl.
  - intuition congruence.
  - destruct (cmp x z <=? 0); simpl; rewrite ?IH; intuition congruence.
Qed.

Lemma sort_In {A : Type} (cmp : A -> A -> Z) (y : A) (l : list A) :
  In y (JS.sort cmp l) <-> In y l.
Proof.
  induction l as [| x l IH]; simpl.
  - tauto.
  - rewrite insert_by_In, IH. intuition congruence.
Qed.

Lemma slice_first_In {A : Type} (n : nat) (y : A) (l : list A) :
  In y (JS.slice_first n l) -> In y l.
Proof.
  unfold JS.slice_first. revert l.
  induction n as [| n IH]; intros [| x l]; simpl; try tauto.
  intros [H | H]; [now left | right; now apply IH].
Qed.

Lemma slice_last_app {A : Type} (pre suf : list A) :
  JS.slice_last (List.length suf) (pre ++ suf) = suf.
Proof.
  unfold JS.slice_last. rewrite length_app.
  replace (List.length pre + List.length suf - List.length suf)%nat
    with (List.length pre + 0)%nat by lia.
  rewrite skipn_app, Nat.add_0_r.
  replace (List.length pre - List.length pre)%nat with 0%nat by lia.
  rewrite skipn_all. reflexivity.
Qed.

Lemma last_elem_app {A : Type} (l : list A) (x : A) :
  JS.last_elem (l ++ [x]) = Some x.
Proof.
  unfold JS.last_elem. rewrite length_app. simpl.
  replace (List.length l + 1 - 1)%nat with (List.length l) by lia.
  rewrite nth_error_app2 by lia.
  now rewrite Nat.sub_diag.
Qed.

(** [Math.floor(x * 0.6)] in integer arithmetic. *)
Lemma floor_times_06_div (x : Z) : floor_times_06 x = (x * 6) / 10.
Proof.
  unfold floor_times_06, Qfloor, Qmult, inject_Z. simpl. reflexivity.
Qed.

(** [Math.ceil(x * 0.6)] in integer arithmetic. *)
Lemma ceil_times_06_div (x : Z) : ceil_times_06 x = - ((- (x * 6)) / 10).
Proof.
  unfold ceil_times_06, Qceiling, Qfloor, Qopp, Qmult, inject_Z. simpl. reflexivity.
Qed.

(** ** allowedActivities *)

Lemma allowed_isDeloadWeek (profile : UserProfile) (latestLog : option DailyLog) :
  isDeloadWeek (allowedActivities profile latestLog)
  = match latestLog with
    | None => false
    | Some l => (7 <=? pain l) || (7 <=? instability l) || (8 <=? sleepImpact l)
    end.
Proof.
  unfold allowedActivities.
  repeat match goal with
         | |- context [let '(_, _) := (if ?c then _ else _) in _] => destruct c
         end; reflexivity.
Qed.

Lemma allowed_cardio_bike (profile : UserProfile) (latestLog : option DailyLog) :
  JS.includes (cardio (allowedActivities profile latestLog)) "bike" = true.
Proof.
  unfold allowedActivities. case_ifs; reflexivity.
Qed.

Lemma allowed_cardio_run (profile : UserProfile) (latestLog : option DailyLog) :
  JS.includes (cardio (allowedActivities profile latestLog)) "run"
  = negb (noRunning (restrictions profile))
    && negb (inSling (restrictions profile))
    && noLogOr latestLog (fun l => (pain l <=? 5) && (instability l <=? 5)).
Proof.
  unfold allowedActivities.
  destruct (noRunning (restrictions profile)), (inSling (restrictions profile)),
    (noLogOr latestLog (fun l => (pain l <=? 5) && (instability l <=? 5)));
    case_ifs; reflexivity.
Qed.

Lemma allowed_notes_deload (profile : UserProfile) (latestLog : option DailyLog) :
  isDeloadWeek (allowedActivities profile latestLog) = true ->
  hd_error (notes (allowedActivities profile latestLog))
  = Some "Deload week: reduce intensity, focus on recovery".
Proof.
  rewrite allowed_isDeloadWeek. unfold allowedActivities. intros H. rewrite H.
  case_ifs; reflexivity.
Qed.

Lemma choosePrimaryCardio_eq (profile : UserProfile) (latestLog : option DailyLog) :
  choosePrimaryCardio (allowedActivities profile latestLog)
  = if JS.includes (cardio (allowedActivities profile latestLog)) "run"
    then "run" else "bike".
Proof.
  unfold choosePrimaryCardio. rewrite allowed_cardio_bike. reflexivity.
Qed.

(** ** The scheduling loop *)

Section ScheduleLoopFacts.

Variables (profile : UserProfile) (allowed : AllowedActivities).
Variables (targetCardioMinutes workoutsPerWeek : Z).
Variables (primaryCardio : CardioType).
Variables (cardioExercises strengthExercises : list Exercise).
Variables (targetCardioSessions targetStrengthSessions : Z).

Local Abbreviation day_step :=
  (scheduleDay profile allowed targetCardioMinutes primaryCardio
     cardioExercises strengthExercises targetCardioSessions targetStrengthSessions).

Local Abbreviation loop :=
  (scheduleLoop profile allowed targetCardioMinutes workoutsPerWeek primaryCardio
     cardioExercises strengthExercises targetCardioSessions targetStrengthSessions).

Lemma scheduleDay_workouts (d : Z) (st : Schedule) :
  sch_workouts (day_step d st) = sch_workouts st
  \/ exists w, addedOn primaryCardio d w /\ sch_workouts (day_step d st) = sch_workouts st ++ [w].
Proof.
  unfold scheduleDay.
  destruct ((d =? 3) || (d =? 6)) eqn:Hrest; [now left |].
  match goal with
  | |- context [if ?c then _ else _] => destruct c
  end.
  - match goal with
    | |- context [match ?c with Some _ => _ | None => _ end] => destruct c as [ex |]
    end; [| now left].
    right. eexists. split; [| reflexivity].
    unfold addedOn, restDay. simpl. auto.
  - destruct (strengthSessionsPlanned st <? targetStrengthSessions); [| now left].
    match goal with
    | |- context [if ?c then _ else _] => destruct c
    end; [| now left].
    right. eexists. split; [| reflexivity].
    unfold addedOn, restDay, isCardioWorkout. simpl.
    repeat split; auto. destruct (d =? 1); discriminate.
Qed.

(** The loop appends, for distinct days, at most one workout per day that
    is not a rest day. *)
Lemma scheduleLoop_workouts (days : list Z) :
  NoDup days ->
  forall st : Schedule,
  exists added : list DayWorkout,
    sch_workouts (loop days st) = sch_workouts st ++ added
    /\ Forall (fun w => exists d, In d days /\ addedOn primaryCardio d w) added
    /\ (List.length added <= List.length (filter (fun d => negb (restDay d)) days))%nat
    /\ NoDup (map day added).
Proof.
  induction days as [| d rest IH]; intros Hnd st; simpl.
  - exists []. rewrite app_nil_r. repeat split; auto using NoDup_nil. 
  - inversion Hnd as [| ? ? Hnotin Hnd']; subst.
    destruct (cardioSessionsPlanned st + strengthSessionsPlanned st <? workoutsPerWeek).
    2:{ exists []. rewrite app_nil_r. repeat split; auto using NoDup_nil.
        simpl. lia. }
    destruct (IH Hnd' (day_step d st)) as [added [Heq [Hall [Hlen Hnd2]]]].
    assert (Hall' : Forall (fun w => exists d0, In d0 (d :: rest) /\ addedOn primaryCardio d0 w) added).
    { eapply Forall_impl; [| exact Hall].
      intros w [d0 [Hin Hadd]]. exists d0. split; [now right | assumption]. }
    destruct (scheduleDay_workouts d st) as [Hsame | [w [Hadd Hpush]]].
    + exists added. rewrite Heq, Hsame. repeat split; auto.
      destruct (negb (restDay d)); simpl; lia.
    + exists (w :: added). rewrite Heq, Hpush, <- app_assoc. simpl.
      repeat split.
      * constructor; [| assumption]. exists d. split; [now left | assumption].
      * destruct Hadd as [_ [Hrest _]]. rewrite Hrest. simpl. lia.
      * constructor; [| assumption].
        intros Hin. apply in_map_iff in Hin. destruct Hin as [w' [Hday Hin]].
        rewrite Forall_forall in Hall. destruct (Hall w' Hin) as [d0 [Hin0 [Hd0 _]]].
        destruct Hadd as [Hd _]. apply Hnotin. congruence.
Qed.

End ScheduleLoopFacts.

(** The weekly plan holds at most one workout per day, none on a rest day,
    and its cardio workouts carry the primary cardio type. *)
Lemma fitnessPlan_workouts (env : Env) (profile : UserProfile)
    (latestLog : option DailyLog) (logs : list DailyLog) :
  let plan := fitnessPlan env profile latestLog logs in
  let primary := choosePrimaryCardio (allowedActivities profile latestLog) in
  Forall (fun w => exists d, In d WEEK_DAYS /\ addedOn primary d w) (workouts plan)
  /\ (List.length (workouts plan) <= 5)%nat
  /\ NoDup (map day (workouts plan)).
Proof.
  intros plan primary. subst plan primary. unfold fitnessPlan.
  cbv zeta. unfold workouts.
  match goal with
  | |- context [scheduleLoop ?p ?a ?t ?w ?pc ?ce ?se ?tc ?ts WEEK_DAYS ?st] =>
      assert (Hdays : NoDup WEEK_DAYS)
        by (unfold WEEK_DAYS; repeat constructor; simpl; intuition lia);
      destruct (scheduleLoop_workouts p a t w pc ce se tc ts WEEK_DAYS Hdays st)
        as [added [Heq [Hall [Hlen Hnd]]]]
  end.
  rewrite Heq. simpl. repeat split; assumption.
Qed.

(** ** rehabPlan *)

Lemma filter_length_le {A : Type} (f g : A -> bool) (l : list A) :
  (forall x, f x = true -> g x = true) ->
  (List.length (filter f l) <= List.length (filter g l))%nat.
Proof.
  intros Hfg. induction l as [| x l IH]; simpl.
  - lia.
  - destruct (f x) eqn:Hf.
    + rewrite (Hfg x Hf). simpl. lia.
    + destruct (g x); simpl; lia.
Qed.

(** The stage caps relax as the stage advances: what an earlier stage
    admits, a later one admits. *)
Lemma rehabFilter_relax (s s' : RecoveryStage) (profile : UserProfile)
    (latestLog : option DailyLog) (ex : Exercise) :
  stage_le s s' ->
  rehabFilter s profile latestLog ex = true ->
  rehabFilter s' profile latestLog ex = true.
Proof.
  intros Hle. unfold rehabFilter.
  destruct (2 <? difficulty ex) eqn:E2; destruct (3 <? difficulty ex) eqn:E3;
    try (apply Z.ltb_lt in E3; apply Z.ltb_ge in E2; lia);
    destruct Hle; simpl; rewrite ?andb_true_r, ?andb_false_r;
    case_ifs; congruence.
Qed.

Lemma rehabFilter_pain_cap (s : RecoveryStage) (profile : UserProfile)
    (l : DailyLog) (ex : Exercise) :
  6 <= pain l ->
  rehabFilter s profile (Some l) ex = true ->
  difficulty ex <= 2.
Proof.
  intros Hpain. unfold rehabFilter, currentPain.
  apply Z.leb_le in Hpain. rewrite Hpain. simpl.
  destruct (2 <? difficulty ex) eqn:E2.
  - rewrite !andb_true_r. case_ifs; discriminate.
  - intros _. apply Z.ltb_ge in E2. exact E2.
Qed.

Lemma rehabFilter_acute_cap (profile : UserProfile) (latestLog : option DailyLog)
    (ex : Exercise) :
  rehabFilter Acute profile latestLog ex = true -> difficulty ex <= 2.
Proof.
  unfold rehabFilter. simpl.
  destruct (2 <? difficulty ex) eqn:E2.
  - case_ifs; discriminate.
  - intros _. apply Z.ltb_ge in E2. exact E2.
Qed.

Lemma rehabPlan_length (env : Env) (s : RecoveryStage) (profile : UserProfile)
    (latestLog : option DailyLog) :
  List.length (rw_exercises (rehabPlan env s profile latestLog))
  = Nat.min (exerciseCount s)
      (List.length (filter (rehabFilter s profile latestLog) (getRehabExercises env))).
Proof.
  unfold rehabPlan, JS.slice_first. simpl.
  now rewrite length_map, length_firstn, sort_length.
Qed.

Lemma rehabPlan_selected (env : Env) (s : RecoveryStage) (profile : UserProfile)
    (latestLog : option DailyLog) (we : WorkoutExercise) :
  In we (rw_exercises (rehabPlan env s profile latestLog)) ->
  In (exercise we) (getRehabExercises env)
  /\ rehabFilter s profile latestLog (exercise we) = true.
Proof.
  unfold rehabPlan. simpl. intros Hin.
  apply in_map_iff in Hin. destruct Hin as [ex [Hwe Hin]]. subst we. simpl.
  apply slice_first_In, sort_In, filter_In in Hin. exact Hin.
Qed.

Lemma rehabPlan_length_mono (env : Env) (s s' : RecoveryStage)
    (profile : UserProfile) (latestLog : option DailyLog) :
  stage_le s s' ->
  (exerciseCount s <= exerciseCount s')%nat ->
  (List.length (rw_exercises (rehabPlan env s profile latestLog))
   <= List.length (rw_exercises (rehabPlan env s' profile latestLog)))%nat.
Proof.
  intros Hle Hcount. rewrite !rehabPlan_length.
  pose proof (filter_length_le
                (rehabFilter s profile latestLog) (rehabFilter s' profile latestLog)
                (getRehabExercises env)
                (fun ex => rehabFilter_relax s s' profile latestLog ex Hle)).
  lia.
Qed.

(** C6.  An acute rehab session has at most three exercises, and for a fixed
    profile and latest log the number of exercises of the session does not
    decrease as the stage advances acute, early-rehab, strengthening,
    return-to-sport.  This holds for every catalog. *)
Theorem rehabPlan_count_monotone (env : Env) (profile : UserProfile)
    (latestLog : option DailyLog) :
  (List.length (rw_exercises (rehabPlan env Acute profile latestLog)) <= 3)%nat
  /\ (List.length (rw_exercises (rehabPlan env Acute profile latestLog))
      <= List.length (rw_exercises (rehabPlan env EarlyRehab profile latestLog)))%nat
  /\ (List.length (rw_exercises (rehabPlan env EarlyRehab profile latestLog))
      <= List.length (rw_exercises (rehabPlan env Strengthening profile latestLog)))%nat
  /\ (List.length (rw_exercises (rehabPlan env Strengthening profile latestLog))
      <= List.length (rw_exercises (rehabPlan env ReturnToSport profile latestLog)))%nat.
Proof.
  repeat split.
  - rewrite rehabPlan_length. apply Nat.le_min_l.
  - apply rehabPlan_length_mono; [constructor | simpl; lia].
  - apply rehabPlan_length_mono; [constructor | simpl; lia].
  - apply rehabPlan_length_mono; [constructor | simpl; lia].
Qed.

(** C7.  Whatever the stage, when the latest log reports pain of at least 6
    every exercise selected by [rehabPlan] has difficulty at most 2. *)
Theorem rehabPlan_pain_caps_difficulty (env : Env) (s : RecoveryStage)
    (profile : UserProfile) (l : DailyLog) :
  6 <= pain l ->
  Forall (fun we => difficulty (exercise we) <= 2)
    (rw_exercises (rehabPlan env s profile (Some l))).
Proof.
  intros Hpain. apply Forall_forall. intros we Hin.
  apply rehabPlan_selected in Hin. destruct Hin as [_ Hf].
  eapply rehabFilter_pain_cap; eassumption.
Qed.

(** ** Permissions: deload and running *)

(** C3.  With a latest log, [isDeloadWeek] is true exactly when pain is at
    least 7, or instability is at least 7, or sleep impact is at least 8;
    when it is true the deload note is the first note; without a latest log
    it is false. *)
Theorem isDeloadWeek_spec (profile : UserProfile) :
  (forall l : DailyLog,
      isDeloadWeek (allowedActivities profile (Some l)) = true
      <-> (7 <= pain l \/ 7 <= instability l \/ 8 <= sleepImpact l))
  /\ (forall latestLog : option DailyLog,
        isDeloadWeek (allowedActivities profile latestLog) = true ->
        hd_error (notes (allowedActivities profile latestLog))
        = Some "Deload week: reduce intensity, focus on recovery")
  /\ isDeloadWeek (allowedActivities profile None) = false.
Proof.
  repeat split.
  - rewrite allowed_isDeloadWeek. rewrite !orb_true_iff, !Z.leb_le. tauto.
  - rewrite allowed_isDeloadWeek. rewrite !orb_true_iff, !Z.leb_le. tauto.
  - apply allowed_notes_deload.
  - apply allowed_isDeloadWeek.
Qed.

(** C4.  For a profile with [noRunning] set, whatever the latest log and
    the log window: ['run'] is not among the allowed cardio types, and no
    cardio workout of the weekly plan has cardio type ['run']. *)
Theorem noRunning_excludes_run (env : Env) (profile : UserProfile)
    (latestLog : option DailyLog) (logs : list DailyLog) :
  noRunning (restrictions profile) = true ->
  ~ In "run" (cardio (allowedActivities profile latestLog))
  /\ Forall (fun w => cardioType (fitness w) <> Some "run")
       (cardioWorkouts (fitnessPlan env profile latestLog logs)).
Proof.
  intros Hno.
  assert (Hrun : JS.includes (cardio (allowedActivities profile latestLog)) "run" = false).
  { rewrite allowed_cardio_run, Hno. reflexivity. }
  split.
  - intros Hin. apply includes_In in Hin. congruence.
  - apply Forall_forall. intros w Hin.
    unfold cardioWorkouts in Hin. apply filter_In in Hin. destruct Hin as [Hin Hc].
    destruct (fitnessPlan_workouts env profile latestLog logs) as [Hall _].
    cbv zeta in Hall. rewrite Forall_forall in Hall.
    destruct (Hall w Hin) as [d [_ [_ [_ Hty]]]].
    rewrite (Hty Hc), choosePrimaryCardio_eq, Hrun. discriminate.
Qed.

(** C10.  Since ['bike'] is always allowed, the primary cardio type of the
    weekly plan is ['run'] or ['bike'] (the elliptical and walk branches
    are never taken), and so is the cardio type of every scheduled cardio
    workout. *)
Theorem primaryCardio_is_run_or_bike (env : Env) (profile : UserProfile)
    (latestLog : option DailyLog) (logs : list DailyLog) :
  (choosePrimaryCardio (allowedActivities profile latestLog) = "run"
   \/ choosePrimaryCardio (allowedActivities profile latestLog) = "bike")
  /\ Forall (fun w => cardioType (fitness w) = Some "run"
                      \/ cardioType (fitness w) = Some "bike")
       (cardioWorkouts (fitnessPlan env profile latestLog logs)).
Proof.
  assert (Hp : choosePrimaryCardio (allowedActivities profile latestLog) = "run"
               \/ choosePrimaryCardio (allowedActivities profile latestLog) = "bike").
  { rewrite choosePrimaryCardio_eq.
    destruct (JS.includes (cardio (allowedActivities profile latestLog)) "run"); auto. }
  split; [exact Hp |].
  apply Forall_forall. intros w Hin.
  unfold cardioWorkouts in Hin. apply filter_In in Hin. destruct Hin as [Hin Hc].
  destruct (fitnessPlan_workouts env profile latestLog logs) as [Hall _].
  cbv zeta in Hall. rewrite Forall_forall in Hall.
  destruct (Hall w Hin) as [d [_ [_ [_ Hty]]]].
  rewrite (Hty Hc). destruct Hp as [Hp | Hp]; rewrite Hp; auto.
Qed.

(** ** The weekly plan *)

(** C9.  The weekly plan has no workout on day 3 or day 6 and at most one
    workout per day, hence at most five workouts; so a request for six days
    per week is never met in full. *)
Theorem fitnessPlan_at_most_five (env : Env) (profile : UserProfile)
    (latestLog : option DailyLog) (logs : list DailyLog) :
  Forall (fun w => In (day w) [0; 1; 2; 4; 5])
    (workouts (fitnessPlan env profile latestLog logs))
  /\ NoDup (map day (workouts (fitnessPlan env profile latestLog logs)))
  /\ (List.length (workouts (fitnessPlan env profile latestLog logs)) <= 5)%nat
  /\ (daysPerWeek (goal profile) = 6 ->
      Z.of_nat (List.length (workouts (fitnessPlan env profile latestLog logs)))
      < Z.min (daysPerWeek (goal profile)) 6).
Proof.
  destruct (fitnessPlan_workouts env profile latestLog logs) as [Hall [Hlen Hnd]].
  cbv zeta in Hall, Hlen, Hnd.
  repeat split; try assumption.
  - eapply Forall_impl; [| exact Hall].
    intros w [d [Hin [Hd [Hrest _]]]]. rewrite Hd.
    unfold WEEK_DAYS in Hin. simpl in Hin. unfold restDay in Hrest.
    repeat (destruct Hin as [Hin | Hin];
            [subst d; first [discriminate Hrest | simpl; tauto] |]).
    contradiction.
  - intros H6. rewrite H6. change (Z.min 6 6) with 6. lia.
Qed.

(** C5.  The plan's [totalCardioMinutes] is the goal-driven target for week
    [weeksSince(createdAt) + 1], scaled by 0.6 and floored in a deload
    week; it is the target and not the sum of the minutes of the scheduled
    sessions, from which it can differ. *)
Theorem totalCardioMinutes_is_target :
  (forall (env : Env) (profile : UserProfile) (latestLog : option DailyLog)
          (logs : list DailyLog),
      totalCardioMinutes (fitnessPlan env profile latestLog logs)
      = spec_cardioTarget (goalType (goal profile))
          (weeksSince env (createdAt profile) + 1)
          (isDeloadWeek (allowedActivities profile latestLog)))
  /\ (exists (env : Env) (profile : UserProfile) (latestLog : option DailyLog)
             (logs : list DailyLog),
        scheduledCardioMinutes (fitnessPlan env profile latestLog logs)
        <> totalCardioMinutes (fitnessPlan env profile latestLog logs)).
Proof.
  split.
  - intros env profile latestLog logs.
    unfold fitnessPlan, spec_cardioTarget, goalCardioMinutes, floor_times_06.
    cbv zeta. unfold totalCardioMinutes.
    destruct (goalType (goal profile)); reflexivity.
  - exists sampleEnv, sixDayProfile, (Some mockLog), [mockLog].
    vm_compute. discriminate.
Qed.

(** ** shouldProgress *)

Lemma shouldProgress_last3 (pre : list DailyLog) (a b c : DailyLog) :
  shouldProgress (pre ++ [a; b; c])
  = if negb (Qle_bool (inject_Z (pain a + pain b + pain c) / inject_Z 3) (inject_Z 3))
    then false
    else bucketToAngle (flexionBucket a) <=? bucketToAngle (flexionBucket c).
Proof.
  unfold shouldProgress.
  assert (Hlen : (List.length (pre ++ [a; b; c]) <? 3)%nat = false).
  { apply Nat.ltb_ge. rewrite length_app. simpl. lia. }
  rewrite Hlen. cbv zeta.
  change (JS.slice_last 3 (pre ++ [a; b; c]))
    with (JS.slice_last (List.length [a; b; c]) (pre ++ [a; b; c])).
  rewrite slice_last_app.
  reflexivity.
Qed.

(** C8.  [shouldProgress] is false on fewer than three logs; on the last
    three entries [a; b; c] of a longer list it is false when their average
    pain exceeds 3, and otherwise true exactly when the angle of the last
    entry's flexion bucket is at least that of the first entry's. *)
Theorem shouldProgress_spec :
  (forall logs : list DailyLog,
      (List.length logs < 3)%nat -> shouldProgress logs = false)
  /\ (forall (pre : list DailyLog) (a b c : DailyLog),
        (inject_Z 3 < inject_Z (pain a + pain b + pain c) / inject_Z 3)%Q ->
        shouldProgress (pre ++ [a; b; c]) = false)
  /\ (forall (pre : list DailyLog) (a b c : DailyLog),
        (inject_Z (pain a + pain b + pain c) / inject_Z 3 <= inject_Z 3)%Q ->
        (shouldProgress (pre ++ [a; b; c]) = true
         <-> bucketToAngle (flexionBucket a) <= bucketToAngle (flexionBucket c))).
Proof.
  split; [| split].
  - intros logs Hlen. unfold shouldProgress.
    apply Nat.ltb_lt in Hlen. now rewrite Hlen.
  - intros pre a b c Havg. rewrite shouldProgress_last3.
    destruct (Qle_bool (inject_Z (pain a + pain b + pain c) / inject_Z 3) (inject_Z 3))
      eqn:Hle; [| reflexivity].
    apply Qle_bool_iff in Hle. exfalso. exact (Qlt_not_le _ _ Havg Hle).
  - intros pre a b c Havg. rewrite shouldProgress_last3.
    apply Qle_bool_iff in Havg. rewrite Havg. simpl. apply Z.leb_le.
Qed.

(** ** currentRecoveryStage *)

(** Whenever the profile carries a surgery date, the code counts the weeks
    from it, whatever the surgery status. *)
Lemma weeksRecovering_surgeryDate (env : Env) (profile : UserProfile) (d : Z) :
  surgeryDate profile = Some d ->
  weeksRecovering env profile = weeksSince env d.
Proof.
  unfold weeksRecovering. intros H. now rewrite H.
Qed.

(** The code agrees with the specification's reading for post-op profiles
    and for profiles without a surgery date. *)
Lemma weeksRecovering_agrees (env : Env) (profile : UserProfile) :
  surgeryStatus profile = PostOp \/ surgeryDate profile = None ->
  weeksRecovering env profile = spec_weeksRecovering env profile.
Proof.
  unfold weeksRecovering, spec_weeksRecovering.
  intros [H | H]; rewrite H.
  - destruct (surgeryDate profile); reflexivity.
  - destruct (surgeryStatus profile); reflexivity.
Qed.

Lemma last_elem_skipn {A : Type} (k : nat) (l : list A) :
  (k < List.length l)%nat ->
  JS.last_elem (skipn k l) = JS.last_elem l.
Proof.
  intros Hk. unfold JS.last_elem.
  rewrite nth_error_skipn, length_skipn. f_equal. lia.
Qed.

(** On a non-empty window the classifier's [latestLog] is the last entry of
    the array it was given. *)
Lemma stageLatestLog_last (logs : list DailyLog) (l : DailyLog) :
  stageLatestLog (logs ++ [l]) = Some l.
Proof.
  unfold stageLatestLog, recentLogs, JS.slice_last.
  rewrite last_elem_skipn.
  - apply last_elem_app.
  - rewrite length_app. simpl. lia.
Qed.

(** On a window in the log store's order, that entry is the oldest one. *)
Lemma stageLatestLog_oldest (logs : list DailyLog) (l : DailyLog) :
  dateDescending (logs ++ [l]) ->
  stageLatestLog (logs ++ [l]) = Some l
  /\ Forall (fun x => date l < date x) logs.
Proof.
  intros Hdesc. split; [apply stageLatestLog_last |].
  unfold dateDescending in Hdesc.
  induction logs as [| x logs IH]; [constructor |].
  simpl in Hdesc. apply StronglySorted_inv in Hdesc. destruct Hdesc as [Hs Hall].
  constructor; [| now apply IH].
  rewrite Forall_forall in Hall. apply Hall. apply in_or_app. right. now left.
Qed.

(** C1.  The classifier counts the weeks from the surgery date whenever one
    is present, also for a profile that is not post-op: for a profile injured
    100 days ago with a surgery planned two weeks ahead it counts -2 weeks
    (the specification's reading counts 14) and returns acute, while the
    same profile without the surgery date is in return-to-sport. *)
Theorem surgeryDate_counts_without_post_op :
  surgeryStatus plannedSurgeryProfile = SurgeryPlanned
  /\ weeksRecovering sampleEnv plannedSurgeryProfile = -2
  /\ spec_weeksRecovering sampleEnv plannedSurgeryProfile = 14
  /\ currentRecoveryStage sampleEnv plannedSurgeryProfile [fullRomLog] = Acute
  /\ currentRecoveryStage sampleEnv noSurgeryDateProfile [fullRomLog] = ReturnToSport.
Proof.
  repeat split; vm_compute; reflexivity.
Qed.

(** C2.  On a window in the log store's order (most recent first) the
    classifier reads the ROM angles from the oldest log and averages pain
    over the seven oldest logs: it returns early-rehab where the most recent
    log shows full range of motion, and acute where the seven most recent
    logs average below 7; on the same logs given oldest first it returns
    return-to-sport and early-rehab. *)
Theorem stage_reads_oldest_logs :
  dateDescending descendingWindow
  /\ spec_latestLog descendingWindow = Some fullRomLog
  /\ stageLatestLog descendingWindow = Some lowRomLog
  /\ currentRecoveryStage sampleEnv recoveredProfile descendingWindow = EarlyRehab
  /\ currentRecoveryStage sampleEnv recoveredProfile (rev descendingWindow)
     = ReturnToSport
  /\ dateDescending painfulWeekWindow
  /\ spec_recentLogs painfulWeekWindow = removelast painfulWeekWindow
  /\ recentLogs painfulWeekWindow = tl painfulWeekWindow
  /\ currentRecoveryStage sampleEnv recoveredProfile painfulWeekWindow = Acute
  /\ currentRecoveryStage sampleEnv recoveredProfile (rev painfulWeekWindow)
     = EarlyRehab.
Proof.
  assert (Hd : forall a b : DailyLog, (date b <? date a) = true -> date b < date a)
    by (intros a b; apply Z.ltb_lt).
  repeat split; try (vm_compute; reflexivity);
    unfold dateDescending; repeat constructor; apply Hd; reflexivity.
Qed.

(** ** Concrete instances *)

(** [isDeloadWeek_spec] on the mock profile and a log with pain 8. *)
Lemma isDeloadWeek_spec_witness :
  isDeloadWeek (allowedActivities mockProfile (Some highPainLog)) = true
  /\ hd_error (notes (allowedActivities mockProfile (Some highPainLog)))
     = Some "Deload week: reduce intensity, focus on recovery".
Proof.
  destruct (isDeloadWeek_spec mockProfile) as [Hiff [Hnote _]].
  assert (H : isDeloadWeek (allowedActivities mockProfile (Some highPainLog)) = true).
  { apply Hiff. left. vm_compute. discriminate. }
  split; [exact H | exact (Hnote (Some highPainLog) H)].
Defined.

(** [noRunning_excludes_run] on the half-marathon profile with running
    restricted. *)
Lemma noRunning_excludes_run_witness :
  noRunning (restrictions noRunningProfile) = true
  /\ ~ In "run" (cardio (allowedActivities noRunningProfile (Some mockLog)))
  /\ Forall (fun w => cardioType (fitness w) <> Some "run")
       (cardioWorkouts (fitnessPlan sampleEnv noRunningProfile (Some mockLog) [mockLog])).
Proof.
  split; [reflexivity |].
  apply (noRunning_excludes_run sampleEnv noRunningProfile (Some mockLog) [mockLog]).
  reflexivity.
Defined.

(** The plan of the witness does schedule cardio sessions, on the bike. *)
Example noRunning_plan_cardio :
  map (fun w => (day w, cardioType (fitness w), totalDuration (fitness w)))
    (cardioWorkouts (fitnessPlan sampleEnv noRunningProfile (Some mockLog) [mockLog]))
  = [(0, Some "bike", "23 min"); (2, Some "bike", "23 min"); (4, Some "bike", "23 min")].
Proof. vm_compute. reflexivity. Qed.

(** [rehabPlan_pain_caps_difficulty] on a strengthening session with pain 8. *)
Lemma rehabPlan_pain_caps_difficulty_witness :
  6 <= pain highPainLog
  /\ Forall (fun we => difficulty (exercise we) <= 2)
       (rw_exercises (rehabPlan sampleEnv Strengthening mockProfile (Some highPainLog))).
Proof.
  assert (H : 6 <= pain highPainLog) by (vm_compute; discriminate).
  split; [exact H |].
  exact (rehabPlan_pain_caps_difficulty sampleEnv Strengthening mockProfile highPainLog H).
Defined.

(** With high pain the session keeps only the easy exercises; with low pain
    and full range of motion it takes a harder one. *)
Example rehabPlan_strengthening_high_pain :
  map (fun we => (id (exercise we), difficulty (exercise we)))
    (rw_exercises (rehabPlan sampleEnv Strengthening mockProfile (Some highPainLog)))
  = [("band-er", 2); ("table-slide", 2); ("pendulum", 1); ("scap-squeeze", 1);
     ("isometric-flexion", 1)].
Proof. vm_compute. reflexivity. Qed.

Example rehabPlan_return_to_sport_low_pain :
  map (fun we => (id (exercise we), difficulty (exercise we)))
    (rw_exercises (rehabPlan sampleEnv ReturnToSport mockProfile (Some fullRomLog)))
  = [("band-er", 2); ("table-slide", 2); ("pendulum", 1); ("scap-squeeze", 1);
     ("isometric-flexion", 1); ("push-up-plus", 5)].
Proof. vm_compute. reflexivity. Qed.

(** [shouldProgress_spec] on the log lists of the test suite, and on a
    four-entry list whose last three entries lose range of motion. *)
Lemma shouldProgress_spec_witness :
  shouldProgress [mockLog; mockLog] = false
  /\ shouldProgress [moderatePainLog; moderatePainLog; moderatePainLog] = false
  /\ shouldProgress [lowPainLog; lowPainLog; improvedLog] = true
  /\ shouldProgress [mockLog; improvedLog; lowPainLog; lowPainLog] = false.
Proof.
  destruct shouldProgress_spec as [Hshort [Hpain Hrom]].
  split; [| split; [| split]].
  - apply Hshort. simpl. lia.
  - apply (Hpain [] moderatePainLog moderatePainLog moderatePainLog).
    vm_compute. reflexivity.
  - apply (Hrom [] lowPainLog lowPainLog improvedLog).
    + vm_compute. discriminate.
    + vm_compute. discriminate.
  - destruct (shouldProgress [mockLog; improvedLog; lowPainLog; lowPainLog]) eqn:E;
      [| reflexivity].
    apply (Hrom [mockLog] improvedLog lowPainLog lowPainLog) in E.
    + vm_compute in E. exfalso. apply E. reflexivity.
    + vm_compute. discriminate.
Defined.

(** [fitnessPlan_at_most_five] on a profile that asks for six days. *)
Lemma fitnessPlan_at_most_five_witness :
  daysPerWeek (goal sixDayProfile) = 6
  /\ Z.of_nat (List.length
                 (workouts (fitnessPlan sampleEnv sixDayProfile (Some mockLog) [mockLog])))
     < Z.min (daysPerWeek (goal sixDayProfile)) 6.
Proof.
  split; [reflexivity |].
  apply (fitnessPlan_at_most_five sampleEnv sixDayProfile (Some mockLog) [mockLog]).
  reflexivity.
Defined.

(** Six sessions requested, five scheduled: cardio and strength alternate
    over the five days that are not rest days. *)
Example sixDay_plan :
  map (fun w => (day w, fw_type (fitness w)))
    (workouts (fitnessPlan sampleEnv sixDayProfile (Some mockLog) [mockLog]))
  = [(0, TCardio); (1, TLegs); (2, TCardio); (4, TCardio); (5, TCore)].
Proof. vm_compute. reflexivity. Qed.

(** The target (90 minutes) against the minutes scheduled (3 sessions of
    22 minutes). *)
Example sixDay_plan_minutes :
  totalCardioMinutes (fitnessPlan sampleEnv sixDayProfile (Some mockLog) [mockLog]) = 90
  /\ scheduledCardioMinutes (fitnessPlan sampleEnv sixDayProfile (Some mockLog) [mockLog])
     = 66.
Proof. split; vm_compute; reflexivity. Qed.

(** The deload multiplier: the test "reduces cardio minutes during deload
    week". *)
Example deload_reduces_minutes :
  totalCardioMinutes (fitnessPlan sampleEnv mockProfile (Some lowPainLog) [lowPainLog]) = 90
  /\ totalCardioMinutes (fitnessPlan sampleEnv mockProfile (Some highPainLog) [highPainLog])
     = 54.
Proof. split; vm_compute; reflexivity. Qed.

(** The stage scenarios of the test suite. *)
Example stage_recent_injury :
  currentRecoveryStage sampleEnv
    {| injuryDate := daysAgo 7; surgeryStatus := SurgeryNone; surgeryDate := None;
       restrictions := mockRestrictions; goal := mockGoal; createdAt := sampleNow |}
    [] = Acute.
Proof. vm_compute. reflexivity. Qed.

Example stage_full_recovery :
  currentRecoveryStage sampleEnv recoveredProfile [fullRomLog] = ReturnToSport.
Proof. vm_compute. reflexivity. Qed.

Example parseInt_range : JS.parseInt (JS.split_head "-" "10-15") = JS.Num 10.
Proof. reflexivity. Qed.

Example parseInt_minutes : JS.parseInt "22 min" = JS.Num 22.
Proof. reflexivity. Qed.

Example parseInt_nan : JS.parseInt "abc" = JS.NaN.
Proof. reflexivity. Qed.

Example replace_suffix : JS.str_replace "-no-arms" "" "swim-no-arms" = "swim".
Proof. reflexivity. Qed.

Example sort_is_stable :
  JS.sort (fun a b => fst a - fst b) [(2, "a"); (1, "b"); (2, "c"); (1, "d")]
  = [(1, "b"); (1, "d"); (2, "a"); (2, "c")].
Proof. reflexivity. Qed.

(** * Further properties of the planner *)

(** ** Permissions in closed form *)

Lemma allowed_cardio_eq (profile : UserProfile) (latestLog : option DailyLog) :
  cardio (allowedActivities profile latestLog)
  = ["walk"; "bike"]
    ++ (if negb (inSling (restrictions profile)) then ["elliptical"] else [])
    ++ (if negb (noRunning (restrictions profile))
           && negb (inSling (restrictions profile))
           && noLogOr latestLog (fun l => (pain l <=? 5) && (instability l <=? 5))
        then ["run"] else [])
    ++ (if 60 <=? maxFlexionAngle (restrictions profile) then ["swim"] else [])
    ++ (if negb (inSling (restrictions profile))
           && (60 <=? maxAbductionAngle (restrictions profile))
           && (90 <=? maxFlexionAngle (restrictions profile))
           && noLogOr latestLog (fun l => pain l <=? 3)
        then ["row"] else []).
Proof.
  allowed_cases; reflexivity.
Qed.

Lemma allowed_canDoOverhead (profile : UserProfile) (latestLog : option DailyLog) :
  canDoOverhead (allowedActivities profile latestLog)
  = negb (noOverhead (restrictions profile))
    && (120 <=? maxAbductionAngle (restrictions profile))
    && (120 <=? maxFlexionAngle (restrictions profile))
    && noLogOr latestLog (fun l => pain l <=? 3).
Proof.
  unfold allowedActivities.
  repeat match goal with
         | |- context [let '(_, _) := (if ?c then _ else _) in _] => destruct c
         end; reflexivity.
Qed.

Lemma allowed_canDoHeavyCarries (profile : UserProfile) (latestLog : option DailyLog) :
  canDoHeavyCarries (allowedActivities profile latestLog)
  = negb (inSling (restrictions profile))
    && (90 <=? maxFlexionAngle (restrictions profile))
    && noLogOr latestLog (fun l => pain l <=? 4).
Proof.
  unfold allowedActivities.
  repeat match goal with
         | |- context [let '(_, _) := (if ?c then _ else _) in _] => destruct c
         end; reflexivity.
Qed.

Lemma allowed_canDoPullUps (profile : UserProfile) (latestLog : option DailyLog) :
  canDoPullUps (allowedActivities profile latestLog)
  = negb (inSling (restrictions profile))
    && (150 <=? maxAbductionAngle (restrictions profile))
    && (150 <=? maxFlexionAngle (restrictions profile))
    && match externalRotationLimit (restrictions profile) with
       | LimitNone => true
       | _ => false
       end
    && noLogOr latestLog (fun l => (pain l <=? 2) && (instability l <=? 2)).
Proof.
  unfold allowedActivities.
  repeat match goal with
         | |- context [let '(_, _) := (if ?c then _ else _) in _] => destruct c
         end; reflexivity.
Qed.

Lemma allowed_strength_eq (profile : UserProfile) (latestLog : option DailyLog) :
  strength (allowedActivities profile latestLog)
  = ["legs"]
    ++ (if (60 <=? maxFlexionAngle (restrictions profile))
           || negb (inSling (restrictions profile))
        then ["core"] else [])
    ++ (if negb (inSling (restrictions profile))
           && (90 <=? maxAbductionAngle (restrictions profile))
           && noLogOr latestLog (fun l => pain l <=? 3)
        then ["upper-pull"] else [])
    ++ (if canDoOverhead (allowedActivities profile latestLog)
        then ["upper-push"] else []).
Proof.
  rewrite allowed_canDoOverhead. allowed_cases; reflexivity.
Qed.

Lemma allowed_notes_eq (profile : UserProfile) (latestLog : option DailyLog) :
  notes (allowedActivities profile latestLog)
  = (if isDeloadWeek (allowedActivities profile latestLog)
     then ["Deload week: reduce intensity, focus on recovery"] else [])
    ++ (if negb (noRunning (restrictions profile))
           && negb (inSling (restrictions profile))
           && negb (noLogOr latestLog
                      (fun l => (pain l <=? 5) && (instability l <=? 5)))
        then ["Running paused due to pain/instability levels"] else [])
    ++ (if negb (inSling (restrictions profile))
           && (60 <=? maxAbductionAngle (restrictions profile))
           && (90 <=? maxFlexionAngle (restrictions profile))
           && noLogOr latestLog (fun l => pain l <=? 3)
        then ["Light rowing only - stop if shoulder discomfort"] else [])
    ++ (if negb (inSling (restrictions profile))
           && (90 <=? maxAbductionAngle (restrictions profile))
           && noLogOr latestLog (fun l => pain l <=? 3)
        then ["Upper body pulling: keep light, avoid overhead"] else [])
    ++ (if canDoOverhead (allowedActivities profile latestLog)
        then ["Overhead pressing cleared - start light"] else []).
Proof.
  rewrite allowed_canDoOverhead, allowed_isDeloadWeek. allowed_cases; reflexivity.
Qed.

(** ** Permissions *)

(** X1.  Walking and cycling are always allowed and legs are always
    trainable; the lists carry no duplicates and only the known cardio
    types, in their fixed order of insertion. *)
Theorem allowed_always (profile : UserProfile) (latestLog : option DailyLog) :
  In "walk" (cardio (allowedActivities profile latestLog))
  /\ In "bike" (cardio (allowedActivities profile latestLog))
  /\ In "legs" (strength (allowedActivities profile latestLog))
  /\ NoDup (cardio (allowedActivities profile latestLog))
  /\ NoDup (strength (allowedActivities profile latestLog))
  /\ incl (cardio (allowedActivities profile latestLog))
       ["walk"; "bike"; "elliptical"; "run"; "swim"; "row"]
  /\ incl (strength (allowedActivities profile latestLog))
       ["legs"; "core"; "upper-pull"; "upper-push"].
Proof.
  rewrite allowed_strength_eq, allowed_cardio_eq.
  generalize (canDoOverhead (allowedActivities profile latestLog)). intros over.
  repeat split.
  - simpl. auto.
  - simpl. auto.
  - simpl. auto.
  - case_ifs_simpl; repeat constructor; simpl; intuition discriminate.
  - case_ifs_simpl; repeat constructor; simpl; intuition discriminate.
  - case_ifs_simpl; intros x Hx; simpl in *; tauto.
  - case_ifs_simpl; intros x Hx; simpl in *; tauto.
Qed.

(** X2.  In a sling the elliptical, running and rowing are never allowed,
    nor upper-body pulling, heavy carries or pull-ups. *)
Theorem allowed_in_sling (profile : UserProfile) (latestLog : option DailyLog) :
  inSling (restrictions profile) = true ->
  ~ In "elliptical" (cardio (allowedActivities profile latestLog))
  /\ ~ In "run" (cardio (allowedActivities profile latestLog))
  /\ ~ In "row" (cardio (allowedActivities profile latestLog))
  /\ ~ In "upper-pull" (strength (allowedActivities profile latestLog))
  /\ canDoHeavyCarries (allowedActivities profile latestLog) = false
  /\ canDoPullUps (allowedActivities profile latestLog) = false.
Proof.
  intros Hs.
  rewrite allowed_canDoHeavyCarries, allowed_canDoPullUps,
    allowed_strength_eq, allowed_cardio_eq.
  generalize (canDoOverhead (allowedActivities profile latestLog)). intros over.
  rewrite Hs. simpl. rewrite ?andb_false_r. simpl.
  repeat split; try reflexivity;
    case_ifs_simpl; intuition discriminate.
Qed.

(** X3.  A missing log never restricts: whatever a latest log allows is
    also allowed without one. *)
Theorem allowed_no_log_is_most_permissive (profile : UserProfile) (l : DailyLog) :
  incl (cardio (allowedActivities profile (Some l)))
       (cardio (allowedActivities profile None))
  /\ incl (strength (allowedActivities profile (Some l)))
          (strength (allowedActivities profile None))
  /\ (canDoOverhead (allowedActivities profile (Some l)) = true ->
      canDoOverhead (allowedActivities profile None) = true)
  /\ (canDoHeavyCarries (allowedActivities profile (Some l)) = true ->
      canDoHeavyCarries (allowedActivities profile None) = true)
  /\ (canDoPullUps (allowedActivities profile (Some l)) = true ->
      canDoPullUps (allowedActivities profile None) = true).
Proof.
  rewrite !allowed_strength_eq, !allowed_cardio_eq, !allowed_canDoOverhead,
    !allowed_canDoHeavyCarries, !allowed_canDoPullUps.
  simpl noLogOr. rewrite !andb_true_r.
  destruct (pain l <=? 3), (pain l <=? 4), ((pain l <=? 5) && (instability l <=? 5)),
    ((pain l <=? 2) && (instability l <=? 2));
    rewrite ?andb_true_r, ?andb_false_r;
    (repeat split; try discriminate; try tauto;
     case_ifs_simpl; intros x Hx; simpl in *; tauto).
Qed.

(** X4.  The note that running is paused appears exactly for a profile free
    to run whose latest log reports pain or instability above 5; for such a
    profile either running is allowed or the note is given, never both. *)
Theorem allowed_running_paused (profile : UserProfile) (latestLog : option DailyLog) :
  (In RUN_PAUSED_NOTE (notes (allowedActivities profile latestLog))
   <-> noRunning (restrictions profile) = false
       /\ inSling (restrictions profile) = false
       /\ exists l, latestLog = Some l /\ (5 < pain l \/ 5 < instability l))
  /\ (noRunning (restrictions profile) = false ->
      inSling (restrictions profile) = false ->
      (In "run" (cardio (allowedActivities profile latestLog))
       <-> ~ In RUN_PAUSED_NOTE (notes (allowedActivities profile latestLog)))).
Proof.
  rewrite allowed_notes_eq, allowed_cardio_eq. unfold RUN_PAUSED_NOTE.
  generalize (canDoOverhead (allowedActivities profile latestLog)),
    (isDeloadWeek (allowedActivities profile latestLog)). intros over deload.
  assert (Hlog : noLogOr latestLog (fun l => (pain l <=? 5) && (instability l <=? 5)) = false
                 <-> exists l, latestLog = Some l /\ (5 < pain l \/ 5 < instability l)).
  { destruct latestLog as [l |]; simpl.
    - rewrite andb_false_iff, !Z.leb_gt. split.
      + intros H. exists l. split; [reflexivity | lia].
      + intros [l' [Heq H]]. injection Heq as <-. lia.
    - split; [discriminate | intros [l' [Heq _]]; discriminate]. }
  destruct (noRunning (restrictions profile)), (inSling (restrictions profile)),
    (noLogOr latestLog (fun l => (pain l <=? 5) && (instability l <=? 5)));
    simpl; (split; [| intros Hn Hs; try discriminate]).
  all: try (case_ifs_simpl; intuition discriminate).
  all: try (case_ifs_simpl; split;
            [ intros _; repeat split; apply Hlog; reflexivity
            | intros _; intuition ]).
  all: try (case_ifs_simpl; split;
            [ intros H; exfalso; intuition discriminate
            | intros [_ [_ H]]; apply Hlog in H; discriminate ]).
Qed.

(** X5.  The derived flags agree with the lists: upper-body pushing is
    listed exactly when overhead work is cleared, and whoever is cleared for
    pull-ups is cleared for heavy carries, rowing and upper-body pulling. *)
Theorem allowed_flags_consistent (profile : UserProfile) (latestLog : option DailyLog) :
  (In "upper-push" (strength (allowedActivities profile latestLog))
   <-> canDoOverhead (allowedActivities profile latestLog) = true)
  /\ (canDoPullUps (allowedActivities profile latestLog) = true ->
      canDoHeavyCarries (allowedActivities profile latestLog) = true
      /\ In "row" (cardio (allowedActivities profile latestLog))
      /\ In "upper-pull" (strength (allowedActivities profile latestLog))).
Proof.
  split.
  - rewrite allowed_strength_eq.
    destruct (canDoOverhead (allowedActivities profile latestLog));
      case_ifs_simpl; intuition discriminate.
  - rewrite allowed_canDoPullUps, allowed_canDoHeavyCarries, allowed_strength_eq,
      allowed_cardio_eq.
    generalize (canDoOverhead (allowedActivities profile latestLog)). intros over.
    intros H.
    apply andb_true_iff in H. destruct H as [H Hlog].
    apply andb_true_iff in H. destruct H as [H _].
    apply andb_true_iff in H. destruct H as [H Hf].
    apply andb_true_iff in H. destruct H as [Hs Ha].
    apply Z.leb_le in Ha, Hf.
    rewrite Hs.
    assert (H60a : (60 <=? maxAbductionAngle (restrictions profile)) = true)
      by (apply Z.leb_le; lia).
    assert (H90a : (90 <=? maxAbductionAngle (restrictions profile)) = true)
      by (apply Z.leb_le; lia).
    assert (H90f : (90 <=? maxFlexionAngle (restrictions profile)) = true)
      by (apply Z.leb_le; lia).
    assert (H60f : (60 <=? maxFlexionAngle (restrictions profile)) = true)
      by (apply Z.leb_le; lia).
    assert (H3 : noLogOr latestLog (fun l => pain l <=? 3) = true).
    { destruct latestLog as [l |]; [| reflexivity]. simpl in *.
      apply andb_true_iff in Hlog. destruct Hlog as [Hp _].
      apply Z.leb_le in Hp. apply Z.leb_le. lia. }
    assert (H4 : noLogOr latestLog (fun l => pain l <=? 4) = true).
    { destruct latestLog as [l |]; [| reflexivity]. simpl in *.
      apply andb_true_iff in Hlog. destruct Hlog as [Hp _].
      apply Z.leb_le in Hp. apply Z.leb_le. lia. }
    rewrite H60a, H90a, H90f, H60f, H3, H4. simpl.
    repeat split.
    + do 3 right. apply in_or_app. right. simpl. auto.
    + destruct over; simpl; auto.
Qed.

(** ** The stage classifier *)

Lemma bucketToAngle_values (b : Bucket) :
  In (bucketToAngle b) [30; 75; 105; 135; 165; 0].
Proof.
  unfold bucketToAngle. case_ifs; simpl; tauto.
Qed.

Lemma bucketToAngle_150 (b : Bucket) :
  150 <= bucketToAngle b <-> b = "150+".
Proof.
  unfold bucketToAngle.
  destruct (String.eqb_spec b "<60") as [-> | _]; [split; [lia | discriminate] |].
  destruct (String.eqb_spec b "60-90") as [-> | _]; [split; [lia | discriminate] |].
  destruct (String.eqb_spec b "90-120") as [-> | _]; [split; [lia | discriminate] |].
  destruct (String.eqb_spec b "120-150") as [-> | _]; [split; [lia | discriminate] |].
  destruct (String.eqb_spec b "150+") as [-> | Hne]; [split; [reflexivity | lia] |].
  split; [lia | intros H; contradiction].
Qed.

Lemma currentRecoveryStage_cascade (env : Env) (profile : UserProfile)
    (logs : list DailyLog) :
  currentRecoveryStage env profile logs
  = cascade
      ((weeksRecovering env profile <=? 2) || inSling (restrictions profile)
       || Qle_bool (inject_Z 7) (avgPain logs))
      ((weeksRecovering env profile <=? 6)
       || (currentFlexion (stageLatestLog logs) <? 90)
       || (currentAbduction (stageLatestLog logs) <? 90)
       || Qle_bool (inject_Z 5) (avgPain logs))
      ((weeksRecovering env profile <=? 12)
       || (currentFlexion (stageLatestLog logs) <? 150)
       || (currentAbduction (stageLatestLog logs) <? 150)).
Proof. reflexivity. Qed.

Lemma cascade_mono (a e s a' e' s' : bool) :
  (a' = true -> a = true) ->
  (e' = true -> e = true) ->
  (s' = true -> s = true) ->
  stage_le (cascade a e s) (cascade a' e' s').
Proof.
  destruct a, e, s, a', e', s'; simpl; intros Ha He Hs;
    try constructor;
    try (discriminate (Ha eq_refl));
    try (discriminate (He eq_refl));
    try (discriminate (Hs eq_refl)).
Qed.

Lemma weeksRecovering_mono (env env' : Env) (profile : UserProfile) :
  now env <= now env' ->
  weeksRecovering env profile <= weeksRecovering env' profile.
Proof.
  intros Hnow. unfold weeksRecovering, weeksSince.
  destruct (surgeryDate profile); apply Z.div_le_mono; unfold WEEK_MS; lia.
Qed.

(** X6.  A profile in a sling is in the acute stage, whatever the dates and
    the logs. *)
Theorem stage_in_sling_is_acute (env : Env) (profile : UserProfile)
    (logs : list DailyLog) :
  inSling (restrictions profile) = true ->
  currentRecoveryStage env profile logs = Acute.
Proof.
  intros Hs. rewrite currentRecoveryStage_cascade, Hs.
  now rewrite orb_true_r.
Qed.

(** X7.  Without any log the classifier assumes pain 5 and 30 degrees of
    motion: the stage is acute in the first weeks or in a sling, and
    early-rehab otherwise, however long ago the injury was. *)
Theorem stage_without_logs (env : Env) (profile : UserProfile) :
  currentRecoveryStage env profile []
  = if (weeksRecovering env profile <=? 2) || inSling (restrictions profile)
    then Acute else EarlyRehab.
Proof.
  rewrite currentRecoveryStage_cascade.
  change (avgPain []) with (inject_Z 5).
  change (stageLatestLog []) with (@None DailyLog).
  change (Qle_bool (inject_Z 7) (inject_Z 5)) with false.
  rewrite orb_false_r. unfold cascade.
  destruct ((weeksRecovering env profile <=? 2) || inSling (restrictions profile));
    [reflexivity |].
  simpl. now rewrite !orb_true_r.
Qed.

(** X8.  Return-to-sport is reached exactly when more than 12 weeks have
    been counted, the profile is out of the sling, the average pain of the
    logs read is below 5 and the log read last has both buckets at
    [150+]. *)
Theorem stage_return_to_sport_iff (env : Env) (profile : UserProfile)
    (logs : list DailyLog) :
  currentRecoveryStage env profile logs = ReturnToSport
  <-> 12 < weeksRecovering env profile
      /\ inSling (restrictions profile) = false
      /\ (avgPain logs < inject_Z 5)%Q
      /\ exists l, stageLatestLog logs = Some l
                   /\ flexionBucket l = "150+" /\ abductionBucket l = "150+".
Proof.
  rewrite currentRecoveryStage_cascade.
  assert (H5 : Qle_bool (inject_Z 5) (avgPain logs) = false
               <-> (avgPain logs < inject_Z 5)%Q).
  { split.
    - intros H. apply Qnot_le_lt. intros Hle. apply Qle_bool_iff in Hle. congruence.
    - intros H. destruct (Qle_bool (inject_Z 5) (avgPain logs)) eqn:E; [| reflexivity].
      apply Qle_bool_iff in E. exfalso. exact (Qlt_not_le _ _ H E). }
  assert (H7 : (avgPain logs < inject_Z 5)%Q ->
               Qle_bool (inject_Z 7) (avgPain logs) = false).
  { intros H. destruct (Qle_bool (inject_Z 7) (avgPain logs)) eqn:E; [| reflexivity].
    apply Qle_bool_iff in E. exfalso. apply (Qlt_not_le _ _ H).
    apply Qle_trans with (inject_Z 7); [| exact E].
    rewrite <- Zle_Qle. lia. }
  unfold cascade. split.
  - intros H.
    destruct ((weeksRecovering env profile <=? 2) || inSling (restrictions profile)
              || Qle_bool (inject_Z 7) (avgPain logs)) eqn:Ea; [discriminate |].
    match type of H with
    | (if ?e then _ else _) = _ => destruct e eqn:Ee; [discriminate |]
    end.
    match type of H with
    | (if ?e then _ else _) = _ => destruct e eqn:Es; [discriminate |]
    end.
    apply orb_false_iff in Ea. destruct Ea as [Ea _].
    apply orb_false_iff in Ea. destruct Ea as [_ Hsl].
    apply orb_false_iff in Ee. destruct Ee as [_ Hq].
    apply orb_false_iff in Es. destruct Es as [Es Habd].
    apply orb_false_iff in Es. destruct Es as [Hw Hflex].
    apply Z.leb_gt in Hw. apply Z.ltb_ge in Hflex, Habd.
    repeat split; try assumption; [now apply H5 |].
    unfold currentFlexion, currentAbduction in Hflex, Habd.
    destruct (stageLatestLog logs) as [l |]; [| lia].
    exists l. repeat split; now apply bucketToAngle_150.
  - intros [Hw [Hsl [Hq [l [Hl [Hf Ha]]]]]].
    rewrite Hl, Hsl, (H7 Hq), (proj2 H5 Hq). simpl. rewrite Hf, Ha. simpl.
    replace (weeksRecovering env profile <=? 2) with false
      by (symmetry; apply Z.leb_gt; lia).
    replace (weeksRecovering env profile <=? 6) with false
      by (symmetry; apply Z.leb_gt; lia).
    replace (weeksRecovering env profile <=? 12) with false
      by (symmetry; apply Z.leb_gt; lia).
    reflexivity.
Qed.

(** X9.  With the profile and the logs fixed, the stage never moves back as
    the clock advances. *)
Theorem stage_never_regresses_with_time (env env' : Env) (profile : UserProfile)
    (logs : list DailyLog) :
  now env <= now env' ->
  stage_le (currentRecoveryStage env profile logs)
           (currentRecoveryStage env' profile logs).
Proof.
  intros Hnow. pose proof (weeksRecovering_mono env env' profile Hnow) as Hw.
  rewrite !currentRecoveryStage_cascade.
  apply cascade_mono; intros H;
    repeat (apply orb_true_iff in H; destruct H as [H | H]);
    rewrite ?H, ?orb_true_r; try reflexivity;
    apply Z.leb_le in H;
    match goal with
    | |- (?x <=? ?k) || _ = true =>
        replace (x <=? k) with true by (symmetry; apply Z.leb_le; lia)
    | |- (?x <=? ?k) || _ || _ = true =>
        replace (x <=? k) with true by (symmetry; apply Z.leb_le; lia)
    | |- (?x <=? ?k) || _ || _ || _ = true =>
        replace (x <=? k) with true by (symmetry; apply Z.leb_le; lia)
    end; reflexivity.
Qed.

(** ** Sorting with a key comparator *)

Section SortByKey.

Context {A : Type} (key : A -> Z) (cmp : A -> A -> Z).
Hypothesis cmp_key : forall x y, cmp x y = key x - key y.

Lemma insert_by_perm (x : A) (l : list A) :
  Permutation (JS.insert_by cmp x l) (x :: l).
Proof.
  induction l as [| y l IH]; simpl.
  - apply Permutation_refl.
  - destruct (cmp x y <=? 0).
    + apply Permutation_refl.
    + eapply perm_trans; [apply perm_skip, IH | apply perm_swap].
Qed.

Lemma sort_perm (l : list A) : Permutation (JS.sort cmp l) l.
Proof.
  induction l as [| x l IH]; simpl.
  - constructor.
  - eapply perm_trans; [apply insert_by_perm | now apply perm_skip].
Qed.

Lemma insert_by_sorted (x : A) (l : list A) :
  StronglySorted (fun a b => key a <= key b) l ->
  StronglySorted (fun a b => key a <= key b) (JS.insert_by cmp x l).
Proof.
  induction l as [| y l IH]; intros Hs; simpl.
  - repeat constructor.
  - apply StronglySorted_inv in Hs. destruct Hs as [Hs Hall].
    destruct (cmp x y <=? 0) eqn:E.
    + apply Z.leb_le in E. rewrite cmp_key in E.
      constructor; [constructor; assumption |].
      constructor; [lia |].
      eapply Forall_impl; [| exact Hall]. simpl. intros z Hz. lia.
    + apply Z.leb_gt in E. rewrite cmp_key in E.
      constructor; [now apply IH |].
      apply Forall_forall. intros z Hz. apply insert_by_In in Hz.
      destruct Hz as [-> | Hz]; [lia |].
      rewrite Forall_forall in Hall. now apply Hall.
Qed.

Lemma sort_sorted (l : list A) :
  StronglySorted (fun a b => key a <= key b) (JS.sort cmp l).
Proof.
  induction l as [| x l IH]; simpl.
  - constructor.
  - now apply insert_by_sorted.
Qed.

(** The sort is stable: elements with the same key keep their order. *)
Lemma insert_by_stable (k : Z) (x : A) (l : list A) :
  filter (fun y => key y =? k) (JS.insert_by cmp x l)
  = filter (fun y => key y =? k) (x :: l).
Proof.
  induction l as [| y l IH]; simpl.
  - reflexivity.
  - destruct (cmp x y <=? 0) eqn:E; simpl.
    + reflexivity.
    + apply Z.leb_gt in E. rewrite cmp_key in E.
      rewrite IH. simpl.
      destruct (key x =? k) eqn:Ex; [| reflexivity].
      apply Z.eqb_eq in Ex.
      replace (key y =? k) with false by (symmetry; apply Z.eqb_neq; lia).
      reflexivity.
Qed.

Lemma sort_stable (k : Z) (l : list A) :
  filter (fun y => key y =? k) (JS.sort cmp l) = filter (fun y => key y =? k) l.
Proof.
  induction l as [| x l IH]; simpl.
  - reflexivity.
  - rewrite insert_by_stable. simpl. now rewrite IH.
Qed.

End SortByKey.

Lemma StronglySorted_app_inv {A : Type} (R : A -> A -> Prop) (l1 l2 : list A) :
  StronglySorted R (l1 ++ l2) ->
  StronglySorted R l1 /\ Forall (fun x => Forall (R x) l2) l1.
Proof.
  induction l1 as [| x l1 IH]; simpl; intros Hs.
  - split; constructor.
  - apply StronglySorted_inv in Hs. destruct Hs as [Hs Hall].
    destruct (IH Hs) as [Hs1 Hcross].
    apply Forall_app in Hall. destruct Hall as [Hall1 Hall2].
    split; constructor; assumption.
Qed.

(** ** The rehab session *)

Lemma rehabPlan_exercises (env : Env) (s : RecoveryStage) (profile : UserProfile)
    (latestLog : option DailyLog) :
  map exercise (rw_exercises (rehabPlan env s profile latestLog))
  = firstn (exerciseCount s)
      (JS.sort (byTargetDifficulty s) (eligibleRehab env s profile latestLog)).
Proof.
  unfold rehabPlan, eligibleRehab, JS.slice_first. simpl.
  rewrite map_map. simpl. apply map_id.
Qed.

Lemma rehabFilter_true (s : RecoveryStage) (profile : UserProfile)
    (latestLog : option DailyLog) (ex : Exercise) :
  rehabFilter s profile latestLog ex = true ->
  minFlexionAngle ex <= currentFlexion latestLog
  /\ minAbductionAngle ex <= currentAbduction latestLog
  /\ (requiresOverhead ex = true ->
      noOverhead (restrictions profile) = false /\ 120 <= currentFlexion latestLog)
  /\ (requiresShoulderLoading ex = true -> inSling (restrictions profile) = false)
  /\ (requiresExternalRotation ex = true ->
      externalRotationLimit (restrictions profile) <> Severe).
Proof.
  unfold rehabFilter.
  destruct (currentFlexion latestLog <? minFlexionAngle ex) eqn:Ef; [discriminate |].
  destruct (currentAbduction latestLog <? minAbductionAngle ex) eqn:Ea; [discriminate |].
  apply Z.ltb_ge in Ef, Ea.
  destruct (requiresOverhead ex); simpl.
  - destruct (noOverhead (restrictions profile)); [discriminate |].
    destruct (currentFlexion latestLog <? 120) eqn:E120; [discriminate |].
    apply Z.ltb_ge in E120.
    destruct (requiresShoulderLoading ex); simpl.
    + destruct (inSling (restrictions profile)); [discriminate |].
      destruct (requiresExternalRotation ex); simpl.
      * destruct (externalRotationLimit (restrictions profile));
          intros H; repeat split; auto; discriminate.
      * intros _. repeat split; auto; discriminate.
    + destruct (requiresExternalRotation ex); simpl.
      * destruct (externalRotationLimit (restrictions profile));
          intros H; repeat split; auto; discriminate.
      * intros _. repeat split; auto; discriminate.
  - destruct (requiresShoulderLoading ex); simpl.
    + destruct (inSling (restrictions profile)); [discriminate |].
      destruct (requiresExternalRotation ex); simpl.
      * destruct (externalRotationLimit (restrictions profile));
          intros H; repeat split; auto; discriminate.
      * intros _. repeat split; auto; discriminate.
    + destruct (requiresExternalRotation ex); simpl.
      * destruct (externalRotationLimit (restrictions profile));
          intros H; repeat split; auto; discriminate.
      * intros _. repeat split; auto; discriminate.
Qed.

(** X10.  Every exercise of a rehab session comes from the rehab catalog
    and respects the user's limits: its range-of-motion floors are within
    the logged (or default) angles, it is overhead only if overhead work is
    not forbidden and flexion reaches 120 degrees, it loads the shoulder
    only out of the sling, and it needs external rotation only when that is
    not severely limited. *)
Theorem rehabPlan_respects_limits (env : Env) (s : RecoveryStage)
    (profile : UserProfile) (latestLog : option DailyLog) :
  Forall
    (fun we =>
       In (exercise we) (getRehabExercises env)
       /\ minFlexionAngle (exercise we) <= currentFlexion latestLog
       /\ minAbductionAngle (exercise we) <= currentAbduction latestLog
       /\ (requiresOverhead (exercise we) = true ->
           noOverhead (restrictions profile) = false
           /\ 120 <= currentFlexion latestLog)
       /\ (requiresShoulderLoading (exercise we) = true ->
           inSling (restrictions profile) = false)
       /\ (requiresExternalRotation (exercise we) = true ->
           externalRotationLimit (restrictions profile) <> Severe))
    (rw_exercises (rehabPlan env s profile latestLog)).
Proof.
  apply Forall_forall. intros we Hin.
  apply rehabPlan_selected in Hin. destruct Hin as [Hcat Hf].
  split; [exact Hcat | exact (rehabFilter_true _ _ _ _ Hf)].
Qed.

(** X11.  The stage caps the difficulty: at most 2 in the acute stage and
    at most 3 in early rehab. *)
Theorem rehabPlan_stage_caps (env : Env) (profile : UserProfile)
    (latestLog : option DailyLog) :
  Forall (fun we => difficulty (exercise we) <= 2)
    (rw_exercises (rehabPlan env Acute profile latestLog))
  /\ Forall (fun we => difficulty (exercise we) <= 3)
       (rw_exercises (rehabPlan env EarlyRehab profile latestLog)).
Proof.
  split; apply Forall_forall; intros we Hin;
    apply rehabPlan_selected in Hin; destruct Hin as [_ Hf].
  - now apply rehabFilter_acute_cap in Hf.
  - unfold rehabFilter in Hf. simpl in Hf.
    destruct (3 <? difficulty (exercise we)) eqn:E3.
    + revert Hf. case_ifs; discriminate.
    + now apply Z.ltb_ge in E3.
Qed.

(** A rehab session has exactly as many exercises as the stage asks
    for, or all the eligible ones when there are fewer: it degrades to a
    shorter, possibly empty, session. *)
Theorem rehabPlan_count (env : Env) (s : RecoveryStage) (profile : UserProfile)
    (latestLog : option DailyLog) :
  List.length (rw_exercises (rehabPlan env s profile latestLog))
  = Nat.min (exerciseCount s) (List.length (eligibleRehab env s profile latestLog))
  /\ (eligibleRehab env s profile latestLog = [] ->
      rw_exercises (rehabPlan env s profile latestLog) = []).
Proof.
  split.
  - apply rehabPlan_length.
  - intros Hnil. apply length_zero_iff_nil.
    rewrite rehabPlan_length. fold (eligibleRehab env s profile latestLog).
    rewrite Hnil. simpl. apply Nat.min_0_r.
Qed.

(** X12.  The session is ranked by the distance of the difficulty from the
    stage's target, and what is left out is no closer to the target than
    anything selected: the selection together with the rest is the
    eligible set. *)
Theorem rehabPlan_takes_closest (env : Env) (s : RecoveryStage)
    (profile : UserProfile) (latestLog : option DailyLog) :
  StronglySorted (fun a b => targetDistance s a <= targetDistance s b)
    (map exercise (rw_exercises (rehabPlan env s profile latestLog)))
  /\ exists rest : list Exercise,
       Permutation
         (map exercise (rw_exercises (rehabPlan env s profile latestLog)) ++ rest)
         (eligibleRehab env s profile latestLog)
       /\ Forall
            (fun sel =>
               Forall (fun r => targetDistance s sel <= targetDistance s r) rest)
            (map exercise (rw_exercises (rehabPlan env s profile latestLog))).
Proof.
  rewrite rehabPlan_exercises.
  set (sorted := JS.sort (byTargetDifficulty s) (eligibleRehab env s profile latestLog)).
  assert (Hs : StronglySorted (fun a b => targetDistance s a <= targetDistance s b) sorted).
  { apply sort_sorted. reflexivity. }
  rewrite <- (firstn_skipn (exerciseCount s) sorted) in Hs.
  apply StronglySorted_app_inv in Hs. destruct Hs as [Hs Hcross].
  split; [exact Hs |].
  exists (skipn (exerciseCount s) sorted). split; [| exact Hcross].
  rewrite firstn_skipn. apply sort_perm.
Qed.

(** X13.  Ties are broken by catalog order: among the eligible exercises at
    one distance from the target, the session takes a prefix of them in the
    order of the catalog. *)
Theorem rehabPlan_ties_keep_catalog_order (env : Env) (s : RecoveryStage)
    (profile : UserProfile) (latestLog : option DailyLog) (k : Z) :
  exists rest : list Exercise,
    filter (fun ex => targetDistance s ex =? k)
      (eligibleRehab env s profile latestLog)
    = filter (fun ex => targetDistance s ex =? k)
        (map exercise (rw_exercises (rehabPlan env s profile latestLog)))
      ++ rest.
Proof.
  rewrite rehabPlan_exercises.
  set (sorted := JS.sort (byTargetDifficulty s) (eligibleRehab env s profile latestLog)).
  exists (filter (fun ex => targetDistance s ex =? k) (skipn (exerciseCount s) sorted)).
  rewrite <- filter_app, firstn_skipn. unfold sorted.
  symmetry. apply (sort_stable (targetDistance s)). reflexivity.
Qed.

(** X14.  When the catalog lists no exercise twice, neither does the
    session. *)
Theorem rehabPlan_no_repeats (env : Env) (s : RecoveryStage) (profile : UserProfile)
    (latestLog : option DailyLog) :
  NoDup (getRehabExercises env) ->
  NoDup (map exercise (rw_exercises (rehabPlan env s profile latestLog))).
Proof.
  intros Hnd. rewrite rehabPlan_exercises.
  set (sorted := JS.sort (byTargetDifficulty s) (eligibleRehab env s profile latestLog)).
  assert (Hs : NoDup sorted).
  { eapply Permutation_NoDup.
    - apply Permutation_sym. apply sort_perm.
    - unfold eligibleRehab. now apply NoDup_filter. }
  rewrite <- (firstn_skipn (exerciseCount s) sorted) in Hs.
  now apply NoDup_app_remove_r in Hs.
Qed.

(** ** The scheduling loop, step by step *)

Section ScheduleLoopSteps.

Variables (profile : UserProfile) (allowed : AllowedActivities).
Variables (targetCardioMinutes workoutsPerWeek : Z).
Variables (primaryCardio : CardioType).
Variables (cardioExercises strengthExercises : list Exercise).
Variables (targetCardioSessions targetStrengthSessions : Z).

Local Abbreviation day_step :=
  (scheduleDay profile allowed targetCardioMinutes primaryCardio
     cardioExercises strengthExercises targetCardioSessions targetStrengthSessions).

Local Abbreviation loop :=
  (scheduleLoop profile allowed targetCardioMinutes workoutsPerWeek primaryCardio
     cardioExercises strengthExercises targetCardioSessions targetStrengthSessions).

Local Abbreviation cardio_on d ex :=
  {| day := d;
     fitness := cardioWorkout allowed targetCardioMinutes primaryCardio
                  targetCardioSessions d ex |}.

Local Abbreviation strength_on d :=
  {| day := d;
     fitness := strengthWorkout profile allowed d (selectedStrength strengthExercises) |}.

(** An iteration leaves the schedule alone, or appends a cardio session and
    counts it, or appends a strength session and counts it. *)
Lemma scheduleDay_cases (d : Z) (st : Schedule) :
  day_step d st = st
  \/ (cardioSessionsPlanned st < targetCardioSessions
      /\ exists ex,
           chosenCardio primaryCardio cardioExercises = Some ex
           /\ day_step d st
              = {| sch_workouts := sch_workouts st ++ [cardio_on d ex];
                   cardioSessionsPlanned := cardioSessionsPlanned st + 1;
                   strengthSessionsPlanned := strengthSessionsPlanned st |})
  \/ (strengthSessionsPlanned st < targetStrengthSessions
      /\ selectedStrength strengthExercises <> []
      /\ day_step d st
         = {| sch_workouts := sch_workouts st ++ [strength_on d];
              cardioSessionsPlanned := cardioSessionsPlanned st;
              strengthSessionsPlanned := strengthSessionsPlanned st + 1 |}).
Proof.
  unfold scheduleDay. fold (chosenCardio primaryCardio cardioExercises).
  fold (selectedStrength strengthExercises).
  destruct ((d =? 3) || (d =? 6)); [now left |].
  destruct ((d mod 2 =? 0) || (targetStrengthSessions <=? strengthSessionsPlanned st)).
  - simpl.
    destruct (cardioSessionsPlanned st <? targetCardioSessions) eqn:Ec.
    + apply Z.ltb_lt in Ec.
      destruct (chosenCardio primaryCardio cardioExercises) as [ex |] eqn:Ech;
        [| now left].
      right. left. split; [exact Ec |]. exists ex. split; reflexivity.
    + destruct (strengthSessionsPlanned st <? targetStrengthSessions) eqn:Es;
        [| now left].
      apply Z.ltb_lt in Es.
      destruct (selectedStrength strengthExercises) as [| e sel] eqn:Esel;
        [now left |].
      right. right. split; [exact Es |]. split; [discriminate | reflexivity].
  - simpl.
    destruct (strengthSessionsPlanned st <? targetStrengthSessions) eqn:Es;
      [| now left].
    apply Z.ltb_lt in Es.
    destruct (selectedStrength strengthExercises) as [| e sel] eqn:Esel;
      [now left |].
    right. right. split; [exact Es |]. split; [discriminate | reflexivity].
Qed.

(** A property kept by every iteration that starts below the weekly quota
    is kept by the loop. *)
Lemma scheduleLoop_invariant (Inv : Schedule -> Prop) :
  (forall d st,
      cardioSessionsPlanned st + strengthSessionsPlanned st < workoutsPerWeek ->
      Inv st -> Inv (day_step d st)) ->
  forall days st, Inv st -> Inv (loop days st).
Proof.
  intros Hstep days. induction days as [| d rest IH]; intros st Hst; simpl.
  - exact Hst.
  - destruct (cardioSessionsPlanned st + strengthSessionsPlanned st <? workoutsPerWeek)
      eqn:E; [| exact Hst].
    apply Z.ltb_lt in E. apply IH. now apply Hstep.
Qed.

Lemma scheduleDay_counters (d : Z) (st : Schedule) :
  cardioSessionsPlanned st + strengthSessionsPlanned st < workoutsPerWeek ->
  countersOk workoutsPerWeek targetCardioSessions targetStrengthSessions st ->
  countersOk workoutsPerWeek targetCardioSessions targetStrengthSessions (day_step d st).
Proof.
  intros Hlt [Hc [Hs [Hcq [Hsq Hw]]]].
  destruct (scheduleDay_cases d st)
    as [-> | [[Hclt [ex [_ ->]]] | [Hslt [_ ->]]]].
  - repeat split; assumption.
  - unfold countersOk. simpl. rewrite !filter_app, !length_app. simpl.
    repeat split; lia.
  - unfold countersOk. simpl. rewrite !filter_app, !length_app. simpl.
    replace (isCardioWorkout (strength_on d)) with false
      by (unfold isCardioWorkout; simpl; destruct (d =? 1); reflexivity).
    simpl. repeat split; lia.
Qed.

(** What the loop schedules: cardio sessions built from the chosen cardio
    exercise and strength sessions built from the legs-and-core selection,
    which is then not empty. *)
Lemma scheduleDay_contents (d : Z) (st : Schedule) :
  Forall (fun w =>
            (exists ex, chosenCardio primaryCardio cardioExercises = Some ex
                        /\ w = cardio_on (day w) ex)
            \/ (selectedStrength strengthExercises <> []
                /\ w = strength_on (day w)))
    (sch_workouts st) ->
  Forall (fun w =>
            (exists ex, chosenCardio primaryCardio cardioExercises = Some ex
                        /\ w = cardio_on (day w) ex)
            \/ (selectedStrength strengthExercises <> []
                /\ w = strength_on (day w)))
    (sch_workouts (day_step d st)).
Proof.
  intros Hall.
  destruct (scheduleDay_cases d st)
    as [-> | [[_ [ex [Hex ->]]] | [_ [Hsel ->]]]]; [exact Hall | |]; simpl;
    apply Forall_app; (split; [exact Hall |]);
    (apply Forall_cons; [| apply Forall_nil]).
  - left. exists ex. split; [exact Hex | reflexivity].
  - right. split; [exact Hsel | reflexivity].
Qed.

End ScheduleLoopSteps.

(** ** The weekly plan, session by session *)

Lemma fitnessPlan_eq (env : Env) (profile : UserProfile)
    (latestLog : option DailyLog) (logs : list DailyLog) :
  fitnessPlan env profile latestLog logs
  = {| weekNumber := weeksSince env (createdAt profile) + 1;
       workouts := sch_workouts (planFinal env profile latestLog);
       totalCardioMinutes := planCardioMinutes env profile latestLog;
       totalStrengthSessions := strengthSessionsPlanned (planFinal env profile latestLog) |}.
Proof. reflexivity. Qed.

Lemma planFinal_counters (env : Env) (profile : UserProfile)
    (latestLog : option DailyLog) :
  countersOk (planWorkoutsPerWeek profile) (planCardioSessions profile)
    (planStrengthSessions profile) (planFinal env profile latestLog).
Proof.
  unfold planFinal.
  apply scheduleLoop_invariant with
    (Inv := countersOk (planWorkoutsPerWeek profile) (planCardioSessions profile)
              (planStrengthSessions profile)).
  - intros d st. apply scheduleDay_counters.
  - unfold countersOk. simpl. repeat split; lia.
Qed.

Lemma planFinal_contents (env : Env) (profile : UserProfile)
    (latestLog : option DailyLog) :
  Forall (fun w => isPlanCardio env profile latestLog w
                   \/ isPlanStrength env profile latestLog w)
    (sch_workouts (planFinal env profile latestLog)).
Proof.
  unfold planFinal.
  apply scheduleLoop_invariant with
    (Inv := fun st =>
              Forall (fun w => isPlanCardio env profile latestLog w
                               \/ isPlanStrength env profile latestLog w)
                (sch_workouts st)).
  - intros d st _. apply scheduleDay_contents.
  - constructor.
Qed.

Lemma isPlanCardio_cardio (env : Env) (profile : UserProfile)
    (latestLog : option DailyLog) (w : DayWorkout) :
  isPlanCardio env profile latestLog w -> isCardioWorkout w = true.
Proof.
  intros [ex [_ Hw]]. rewrite Hw. reflexivity.
Qed.

Lemma isPlanStrength_not_cardio (env : Env) (profile : UserProfile)
    (latestLog : option DailyLog) (w : DayWorkout) :
  isPlanStrength env profile latestLog w -> isCardioWorkout w = false.
Proof.
  intros [_ Hw]. rewrite Hw. unfold isCardioWorkout. simpl.
  destruct (day w =? 1); reflexivity.
Qed.

Lemma cardioWorkouts_shape (env : Env) (profile : UserProfile)
    (latestLog : option DailyLog) (logs : list DailyLog) (w : DayWorkout) :
  In w (cardioWorkouts (fitnessPlan env profile latestLog logs)) ->
  isPlanCardio env profile latestLog w.
Proof.
  unfold cardioWorkouts. rewrite fitnessPlan_eq. simpl workouts.
  intros Hin. apply filter_In in Hin. destruct Hin as [Hin Hc].
  pose proof (planFinal_contents env profile latestLog) as Hall.
  rewrite Forall_forall in Hall. destruct (Hall w Hin) as [H | H]; [exact H |].
  apply isPlanStrength_not_cardio in H. congruence.
Qed.

Lemma strengthWorkouts_shape (env : Env) (profile : UserProfile)
    (latestLog : option DailyLog) (logs : list DailyLog) (w : DayWorkout) :
  In w (strengthWorkouts (fitnessPlan env profile latestLog logs)) ->
  isPlanStrength env profile latestLog w.
Proof.
  unfold strengthWorkouts. rewrite fitnessPlan_eq. simpl workouts.
  intros Hin. apply filter_In in Hin. destruct Hin as [Hin Hc].
  pose proof (planFinal_contents env profile latestLog) as Hall.
  rewrite Forall_forall in Hall. destruct (Hall w Hin) as [H | H]; [| exact H].
  apply isPlanCardio_cardio in H. rewrite H in Hc. discriminate.
Qed.

Lemma filter_split_length {A : Type} (f : A -> bool) (l : list A) :
  (List.length (filter f l) + List.length (filter (fun x => negb (f x)) l)
   = List.length l)%nat.
Proof.
  induction l as [| x l IH]; simpl; [reflexivity |].
  destruct (f x); simpl; lia.
Qed.

(** X15.  The plan never holds more sessions than the days per week asked
    for (capped at 6; none when the request is not positive), nor more
    cardio sessions than 60 percent of them rounded up; the reported
    number of strength sessions is the number of strength sessions in the
    plan, and stays within the remaining quota. *)
Theorem fitnessPlan_session_counts (env : Env) (profile : UserProfile)
    (latestLog : option DailyLog) (logs : list DailyLog) :
  Z.of_nat (List.length (workouts (fitnessPlan env profile latestLog logs)))
  <= Z.max 0 (Z.min (daysPerWeek (goal profile)) 6)
  /\ Z.of_nat (List.length (cardioWorkouts (fitnessPlan env profile latestLog logs)))
     <= Z.max 0 (ceil_times_06 (Z.min (daysPerWeek (goal profile)) 6))
  /\ totalStrengthSessions (fitnessPlan env profile latestLog logs)
     = Z.of_nat (List.length (strengthWorkouts (fitnessPlan env profile latestLog logs)))
  /\ totalStrengthSessions (fitnessPlan env profile latestLog logs)
     <= Z.max 0 (Z.min (daysPerWeek (goal profile)) 6
                 - ceil_times_06 (Z.min (daysPerWeek (goal profile)) 6)).
Proof.
  unfold cardioWorkouts, strengthWorkouts. rewrite fitnessPlan_eq.
  simpl workouts. simpl totalStrengthSessions.
  destruct (planFinal_counters env profile latestLog) as [Hc [Hs [Hcq [Hsq Hw]]]].
  unfold planStrengthSessions, planCardioSessions, planWorkoutsPerWeek in *.
  pose proof (filter_split_length isCardioWorkout
                (sch_workouts (planFinal env profile latestLog))) as Hlen.
  repeat split; lia.
Qed.

(** X16.  Every session of the plan is easy in a deload week and moderate
    otherwise; no session is ever hard. *)
Theorem fitnessPlan_intensity (env : Env) (profile : UserProfile)
    (latestLog : option DailyLog) (logs : list DailyLog) :
  Forall (fun w =>
            intensity (fitness w)
            = if isDeloadWeek (allowedActivities profile latestLog)
              then IEasy else IModerate)
    (workouts (fitnessPlan env profile latestLog logs)).
Proof.
  rewrite fitnessPlan_eq. simpl workouts.
  eapply Forall_impl; [| apply planFinal_contents].
  intros w [[ex [_ Hw]] | [_ Hw]]; rewrite Hw; reflexivity.
Qed.

Lemma weekNumber_positive (env : Env) (profile : UserProfile) :
  createdAt profile <= now env ->
  1 <= weeksSince env (createdAt profile) + 1.
Proof.
  intros H. unfold weeksSince.
  assert (0 <= (now env - createdAt profile) / WEEK_MS)
    by (apply Z.div_pos; unfold WEEK_MS; lia).
  lia.
Qed.

Lemma goalCardioMinutes_bounds (t : GoalType) (weekNumber : Z) :
  1 <= weekNumber ->
  36 <= goalCardioMinutes t weekNumber <= 180.
Proof.
  intros H. destruct t; unfold goalCardioMinutes; lia.
Qed.

(** X17.  For an account that exists already, a latest log that triggers a
    deload week yields strictly fewer weekly cardio minutes than one that
    does not. *)
Theorem deload_lowers_cardio_minutes (env : Env) (profile : UserProfile)
    (deloadLog otherLog : option DailyLog) (logs logs' : list DailyLog) :
  createdAt profile <= now env ->
  isDeloadWeek (allowedActivities profile deloadLog) = true ->
  isDeloadWeek (allowedActivities profile otherLog) = false ->
  totalCardioMinutes (fitnessPlan env profile deloadLog logs)
  < totalCardioMinutes (fitnessPlan env profile otherLog logs').
Proof.
  intros Hc Hd Ho. rewrite !fitnessPlan_eq. simpl.
  unfold planCardioMinutes. rewrite Hd, Ho. cbv zeta.
  pose proof (goalCardioMinutes_bounds (goalType (goal profile)) _
                (weekNumber_positive env profile Hc)) as Hb.
  rewrite floor_times_06_div. apply Z.div_lt_upper_bound; lia.
Qed.

(** X18.  For an account that exists already the week number is at least 1
    and the weekly cardio minutes lie between 21 and 180. *)
Theorem fitnessPlan_minutes_bounds (env : Env) (profile : UserProfile)
    (latestLog : option DailyLog) (logs : list DailyLog) :
  createdAt profile <= now env ->
  1 <= weekNumber (fitnessPlan env profile latestLog logs)
  /\ 21 <= totalCardioMinutes (fitnessPlan env profile latestLog logs) <= 180.
Proof.
  intros Hc. rewrite fitnessPlan_eq. simpl.
  pose proof (weekNumber_positive env profile Hc) as Hw.
  pose proof (goalCardioMinutes_bounds (goalType (goal profile)) _ Hw) as Hb.
  split; [exact Hw |].
  unfold planCardioMinutes. cbv zeta.
  destruct (isDeloadWeek (allowedActivities profile latestLog)); [| lia].
  rewrite floor_times_06_div. split.
  - apply Z.div_le_lower_bound; lia.
  - apply Z.lt_le_incl. apply Z.div_lt_upper_bound; lia.
Qed.

Lemma selectedStrength_In (strengthExercises : list Exercise) (ex : Exercise) :
  In ex (selectedStrength strengthExercises) ->
  In ex strengthExercises /\ (targetArea ex = Legs \/ targetArea ex = Core).
Proof.
  unfold selectedStrength. intros Hin. apply in_app_or in Hin.
  destruct Hin as [Hin | Hin]; apply slice_first_In, filter_In in Hin;
    destruct Hin as [Hin Ht]; (split; [exact Hin |]);
    destruct (targetArea ex); try discriminate; auto.
Qed.

Lemma selectedStrength_length (strengthExercises : list Exercise) :
  (List.length (selectedStrength strengthExercises) <= 5)%nat.
Proof.
  unfold selectedStrength, JS.slice_first. rewrite length_app, !length_firstn. lia.
Qed.

Lemma strengthFilter_true (allowed : AllowedActivities) (profile : UserProfile)
    (latestLog : option DailyLog) (ex : Exercise) :
  strengthFilter allowed profile latestLog ex = true ->
  targetArea ex <> Shoulder
  /\ (requiresOverhead ex = true -> canDoOverhead allowed = true)
  /\ (requiresShoulderLoading ex = true -> inSling (restrictions profile) = false)
  /\ minFlexionAngle ex <= currentFlexion latestLog.
Proof.
  unfold strengthFilter.
  destruct (targetArea ex); simpl; try discriminate;
    destruct (requiresOverhead ex), (canDoOverhead allowed),
      (requiresShoulderLoading ex), (inSling (restrictions profile));
    simpl; try discriminate;
    destruct (currentFlexion latestLog <? minFlexionAngle ex) eqn:E;
    try discriminate; apply Z.ltb_ge in E; intros _;
    repeat split; auto; discriminate.
Qed.

(** X19.  A strength session of the plan has between one and five
    exercises, all from the strength catalog, all for legs or core; none
    loads the shoulder while the profile is in a sling, none is overhead
    unless overhead work is cleared, and none needs more flexion than
    logged. *)
Theorem fitnessPlan_strength_sessions (env : Env) (profile : UserProfile)
    (latestLog : option DailyLog) (logs : list DailyLog) :
  Forall
    (fun w =>
       cardioType (fitness w) = None
       /\ (1 <= List.length (fw_exercises (fitness w)) <= 5)%nat
       /\ Forall
            (fun we =>
               In (exercise we) (getStrengthExercises env)
               /\ (targetArea (exercise we) = Legs \/ targetArea (exercise we) = Core)
               /\ (requiresShoulderLoading (exercise we) = true ->
                   inSling (restrictions profile) = false)
               /\ (requiresOverhead (exercise we) = true ->
                   canDoOverhead (allowedActivities profile latestLog) = true)
               /\ minFlexionAngle (exercise we) <= currentFlexion latestLog)
            (fw_exercises (fitness w)))
    (strengthWorkouts (fitnessPlan env profile latestLog logs)).
Proof.
  apply Forall_forall. intros w Hin.
  apply strengthWorkouts_shape in Hin. destruct Hin as [Hne Hw].
  rewrite Hw. simpl. rewrite length_map.
  split; [reflexivity |]. split.
  - split; [| apply selectedStrength_length].
    destruct (selectedStrength (planStrengthExercises env profile latestLog));
      [contradiction | simpl; lia].
  - apply Forall_forall. intros we Hwe.
    apply in_map_iff in Hwe. destruct Hwe as [ex [<- Hex]]. simpl.
    apply selectedStrength_In in Hex. destruct Hex as [Hex Harea].
    unfold planStrengthExercises in Hex. apply filter_In in Hex.
    destruct Hex as [Hcat Hf].
    apply strengthFilter_true in Hf. destruct Hf as [_ [Hoh [Hld Hflex]]].
    repeat split; assumption.
Qed.

Lemma chosenCardio_In (primaryCardio : CardioType) (cardioExercises : list Exercise)
    (ex : Exercise) :
  chosenCardio primaryCardio cardioExercises = Some ex -> In ex cardioExercises.
Proof.
  unfold chosenCardio, JS.or_else, JS.find.
  destruct (List.find (fun e => JS.str_includes primaryCardio (id e)) cardioExercises)
    as [e |] eqn:Ef.
  - intros H. injection H as <-. now apply find_some in Ef.
  - apply nth_error_In.
Qed.

(** X20.  A cardio session of the plan consists of one exercise with one
    set, lasting the weekly minutes divided by the number of cardio
    sessions; the exercise comes from the cardio catalog, its identifier
    without the [-no-arms] and [-light] suffixes is an allowed cardio type,
    and it needs no more flexion than logged. *)
Theorem fitnessPlan_cardio_sessions (env : Env) (profile : UserProfile)
    (latestLog : option DailyLog) (logs : list DailyLog) :
  Forall
    (fun w =>
       exists ex,
         fw_exercises (fitness w)
         = [ {| exercise := ex; we_sets := JS.Num 1; we_reps := None;
                we_duration := Some (totalDuration (fitness w)) |} ]
         /\ totalDuration (fitness w)
            = String.append
                (JS.toString
                   (totalCardioMinutes (fitnessPlan env profile latestLog logs)
                    / ceil_times_06 (Z.min (daysPerWeek (goal profile)) 6)))
                " min"
         /\ In ex (getCardioExercises env)
         /\ In (JS.str_replace "-light" "" (JS.str_replace "-no-arms" "" (id ex)))
              (cardio (allowedActivities profile latestLog))
         /\ minFlexionAngle ex <= currentFlexion latestLog)
    (cardioWorkouts (fitnessPlan env profile latestLog logs)).
Proof.
  apply Forall_forall. intros w Hin.
  apply cardioWorkouts_shape in Hin. destruct Hin as [ex [Hex Hw]].
  exists ex. rewrite fitnessPlan_eq. rewrite Hw.
  cbn [fitness fw_exercises totalDuration cardioWorkout totalCardioMinutes].
  split; [reflexivity |]. split; [reflexivity |].
  apply chosenCardio_In in Hex. unfold planCardioExercises in Hex.
  apply filter_In in Hex. destruct Hex as [Hcat Hf].
  split; [exact Hcat |].
  unfold cardioFilter in Hf.
  destruct (JS.includes (cardio (allowedActivities profile latestLog))
              (JS.str_replace "-light" "" (JS.str_replace "-no-arms" "" (id ex))))
    eqn:Einc; simpl in Hf; [| discriminate].
  destruct (currentFlexion latestLog <? minFlexionAngle ex) eqn:E; [discriminate |].
  apply Z.ltb_ge in E. split; [now apply includes_In | exact E].
Qed.

Lemma find_by_day (today : Z) (ws : list DayWorkout) (w : DayWorkout) :
  NoDup (map day ws) -> In w ws -> day w = today ->
  List.find (fun x => day x =? today) ws = Some w.
Proof.
  induction ws as [| x ws IH]; simpl; intros Hnd Hin Hd; [contradiction |].
  inversion Hnd as [| ? ? Hnotin Hnd']; subst.
  destruct Hin as [-> | Hin].
  - now rewrite Z.eqb_refl.
  - destruct (day x =? day w) eqn:E.
    + apply Z.eqb_eq in E. exfalso. apply Hnotin. rewrite E. now apply in_map.
    + now apply IH.
Qed.

Lemma getTodayWorkout_snd (env : Env) (today : Z) (profile : UserProfile)
    (latestLog : option DailyLog) (logs : list DailyLog) :
  snd (getTodayWorkout env today profile latestLog logs)
  = option_map fitness
      (List.find (fun w => day w =? today)
         (workouts (fitnessPlan env profile latestLog logs))).
Proof. reflexivity. Qed.

(** X21.  Today's workout is the plan's entry for the weekday: it is absent
    on the rest days 3 and 6 (and for a weekday outside 0..6), it is the
    session of an entry of the plan for that day whenever it is present,
    and every entry of the plan is returned on its day. *)
Theorem getTodayWorkout_fitness (env : Env) (today : Z) (profile : UserProfile)
    (latestLog : option DailyLog) (logs : list DailyLog) :
  (~ In today [0; 1; 2; 4; 5] ->
   snd (getTodayWorkout env today profile latestLog logs) = None)
  /\ (forall f,
        snd (getTodayWorkout env today profile latestLog logs) = Some f ->
        In {| day := today; fitness := f |}
          (workouts (fitnessPlan env profile latestLog logs)))
  /\ (forall w,
        In w (workouts (fitnessPlan env profile latestLog logs)) ->
        day w = today ->
        snd (getTodayWorkout env today profile latestLog logs) = Some (fitness w)).
Proof.
  rewrite getTodayWorkout_snd.
  destruct (fitnessPlan_workouts env profile latestLog logs) as [Hall [_ Hnd]].
  cbv zeta in Hall, Hnd. rewrite Forall_forall in Hall.
  split; [| split].
  - intros Hnot.
    destruct (List.find (fun w => day w =? today)
                (workouts (fitnessPlan env profile latestLog logs))) as [w |] eqn:Ef;
      [| reflexivity].
    apply find_some in Ef. destruct Ef as [Hin Hd]. apply Z.eqb_eq in Hd.
    destruct (Hall w Hin) as [d [Hdin [Hday [Hrest _]]]].
    exfalso. apply Hnot. rewrite <- Hd, Hday.
    unfold WEEK_DAYS in Hdin. simpl in Hdin. unfold restDay in Hrest.
    repeat (destruct Hdin as [Hdin | Hdin];
            [subst d; first [discriminate Hrest | simpl; tauto] |]).
    contradiction.
  - intros f Hf.
    destruct (List.find (fun w => day w =? today)
                (workouts (fitnessPlan env profile latestLog logs))) as [w |] eqn:Ef;
      [| discriminate].
    simpl in Hf. injection Hf as <-.
    apply find_some in Ef. destruct Ef as [Hin Hd]. apply Z.eqb_eq in Hd.
    rewrite <- Hd. now destruct w.
  - intros w Hin Hd. now rewrite (find_by_day today _ w Hnd Hin Hd).
Qed.

(** ** The next milestone *)

(** X22.  The first-run milestone is suggested exactly when running is not
    restricted, the latest log has pain of at most 3, both angles reach 120
    degrees, no sling was worn and sleep impact is at most 3. *)
Theorem suggestNextMilestone_first_run (profile : UserProfile) (l : DailyLog) :
  suggestNextMilestone profile (Some l) = "First pain-free run"
  <-> noRunning (restrictions profile) = false
      /\ pain l <= 3
      /\ 120 <= bucketToAngle (flexionBucket l)
      /\ 120 <= bucketToAngle (abductionBucket l)
      /\ slingWorn l = false
      /\ sleepImpact l <= 3.
Proof.
  unfold suggestNextMilestone.
  destruct (bucketToAngle (flexionBucket l) <? 90) eqn:E1;
    [apply Z.ltb_lt in E1; split; [discriminate | lia] |].
  destruct (bucketToAngle (abductionBucket l) <? 90) eqn:E2;
    [apply Z.ltb_lt in E2; split; [discriminate | lia] |].
  destruct (bucketToAngle (flexionBucket l) <? 120) eqn:E3;
    [apply Z.ltb_lt in E3; split; [discriminate | lia] |].
  destruct (bucketToAngle (abductionBucket l) <? 120) eqn:E4;
    [apply Z.ltb_lt in E4; split; [discriminate | lia] |].
  apply Z.ltb_ge in E3, E4.
  destruct (slingWorn l); [split; [discriminate | intros [_ [_ [_ [_ [H _]]]]]; discriminate] |].
  destruct (3 <? sleepImpact l) eqn:E5;
    [apply Z.ltb_lt in E5; split; [discriminate | lia] |].
  apply Z.ltb_ge in E5.
  destruct (noRunning (restrictions profile)); simpl;
    [split; [discriminate | intros [H _]; discriminate] |].
  destruct (pain l <=? 3) eqn:E6.
  - apply Z.leb_le in E6. split; [intros _; repeat split; assumption | reflexivity].
  - apply Z.leb_gt in E6. split; [discriminate | lia].
Qed.

(** X23.  Range of motion comes first: without a log the hint is to log,
    and with a flexion bucket other than [90-120], [120-150] and [150+]
    (an unrecognised bucket included) the hint is flexion to 90 degrees,
    whatever else the log says. *)
Theorem suggestNextMilestone_flexion_first (profile : UserProfile) :
  suggestNextMilestone profile None
  = "Complete your first daily log to track progress"
  /\ forall l : DailyLog,
       flexionBucket l <> "90-120" ->
       flexionBucket l <> "120-150" ->
       flexionBucket l <> "150+" ->
       suggestNextMilestone profile (Some l)
       = "Work toward forward flexion to 90 degrees".
Proof.
  split; [reflexivity |].
  intros l H1 H2 H3. unfold suggestNextMilestone.
  assert (Hlt : (bucketToAngle (flexionBucket l) <? 90) = true).
  { apply Z.ltb_lt. unfold bucketToAngle.
    destruct (String.eqb_spec (flexionBucket l) "<60"); [lia |].
    destruct (String.eqb_spec (flexionBucket l) "60-90"); [lia |].
    destruct (String.eqb_spec (flexionBucket l) "90-120"); [contradiction |].
    destruct (String.eqb_spec (flexionBucket l) "120-150"); [contradiction |].
    destruct (String.eqb_spec (flexionBucket l) "150+"); [contradiction |].
    lia. }
  now rewrite Hlt.
Qed.

(** ** The rehab page *)

(** X24.  For a profile in a sling the rehab page shows an acute session:
    at most three exercises, each of difficulty at most 2 and none loading
    the shoulder. *)
Theorem rehabPage_in_sling (env : Env) (profile : UserProfile)
    (logs : list DailyLog) :
  inSling (restrictions profile) = true ->
  stage (rehabPageWorkout env profile logs) = Acute
  /\ (List.length (rw_exercises (rehabPageWorkout env profile logs)) <= 3)%nat
  /\ Forall (fun we => difficulty (exercise we) <= 2
                       /\ requiresShoulderLoading (exercise we) = false)
       (rw_exercises (rehabPageWorkout env profile logs)).
Proof.
  intros Hs. unfold rehabPageWorkout. cbv zeta.
  assert (Hst : currentRecoveryStage env profile logs = Acute).
  { rewrite currentRecoveryStage_cascade, Hs. now rewrite orb_true_r. }
  rewrite Hst. split; [reflexivity |]. split.
  - rewrite rehabPlan_length. apply Nat.le_min_l.
  - apply Forall_forall. intros we Hin.
    apply rehabPlan_selected in Hin. destruct Hin as [_ Hf]. split.
    + now apply rehabFilter_acute_cap in Hf.
    + apply rehabFilter_true in Hf. destruct Hf as [_ [_ [_ [Hld _]]]].
      destruct (requiresShoulderLoading (exercise we)); [| reflexivity].
      specialize (Hld eq_refl). congruence.
Qed.

(** X25.  Before the first log the rehab page shows an acute or early-rehab
    session with the caution note, of at most four exercises, each of
    difficulty at most 3, needing no more than 30 degrees of flexion and
    abduction and no overhead work. *)
Theorem rehabPage_without_logs (env : Env) (profile : UserProfile) :
  (stage (rehabPageWorkout env profile []) = Acute
   \/ stage (rehabPageWorkout env profile []) = EarlyRehab)
  /\ rw_notes (rehabPageWorkout env profile [])
     = Some "Go gentle today - pain is elevated"
  /\ (List.length (rw_exercises (rehabPageWorkout env profile [])) <= 4)%nat
  /\ Forall (fun we => difficulty (exercise we) <= 3
                       /\ minFlexionAngle (exercise we) <= 30
                       /\ minAbductionAngle (exercise we) <= 30
                       /\ requiresOverhead (exercise we) = false)
       (rw_exercises (rehabPageWorkout env profile [])).
Proof.
  unfold rehabPageWorkout. cbv zeta. change (hd_error (@nil DailyLog)) with (@None DailyLog).
  assert (Hst : currentRecoveryStage env profile [] = Acute
                \/ currentRecoveryStage env profile [] = EarlyRehab).
  { rewrite currentRecoveryStage_cascade.
    change (avgPain []) with (inject_Z 5).
    change (Qle_bool (inject_Z 5) (inject_Z 5)) with true.
    rewrite !orb_true_r. unfold cascade. case_ifs; auto. }
  split; [exact Hst |]. split; [reflexivity |].
  assert (Hcap : forall we,
             In we (rw_exercises
                      (rehabPlan env (currentRecoveryStage env profile []) profile None)) ->
             difficulty (exercise we) <= 3).
  { intros we Hin. apply rehabPlan_selected in Hin. destruct Hin as [_ Hf].
    destruct Hst as [Hst | Hst]; rewrite Hst in Hf.
    - apply rehabFilter_acute_cap in Hf. lia.
    - unfold rehabFilter in Hf. simpl in Hf.
      destruct (3 <? difficulty (exercise we)) eqn:E3.
      + revert Hf. case_ifs; discriminate.
      + now apply Z.ltb_ge in E3. }
  split.
  - rewrite rehabPlan_length.
    destruct Hst as [Hst | Hst]; rewrite Hst; simpl exerciseCount; lia.
  - apply Forall_forall. intros we Hin. split; [now apply Hcap |].
    apply rehabPlan_selected in Hin. destruct Hin as [_ Hf].
    apply rehabFilter_true in Hf. destruct Hf as [Hflex [Habd [Hoh _]]].
    simpl in Hflex, Habd, Hoh. repeat split; try assumption.
    destruct (requiresOverhead (exercise we)); [| reflexivity].
    destruct (Hoh eq_refl) as [_ H120]. lia.
Qed.

(** ** The dashboard's pain trend *)

Lemma fold_add_acc (data : list Z) (a : Z) :
  fold_left (fun x y => x + y) data a = a + sumOf data.
Proof.
  unfold sumOf. revert a. induction data as [| x data IH]; intros a; simpl.
  - lia.
  - rewrite (IH (a + x)), (IH x). lia.
Qed.

Lemma sumOf_app (l1 l2 : list Z) : sumOf (l1 ++ l2) = sumOf l1 + sumOf l2.
Proof.
  unfold sumOf at 1. rewrite fold_left_app, fold_add_acc.
  fold (sumOf l1). lia.
Qed.

Lemma sumOf_rev (l : list Z) : sumOf (rev l) = sumOf l.
Proof.
  induction l as [| x l IH]; simpl; [reflexivity |].
  rewrite sumOf_app, IH. unfold sumOf at 2 3. simpl. rewrite fold_add_acc. lia.
Qed.

Lemma sumOf_pain (logs : list DailyLog) : sumOf (map pain logs) = sumPain logs.
Proof.
  unfold sumOf, sumPain. generalize 0.
  induction logs as [| l logs IH]; intros a; simpl; [reflexivity | apply IH].
Qed.

Lemma sumOf_pain_rev (logs : list DailyLog) :
  sumOf (map pain (rev logs)) = sumPain logs.
Proof.
  now rewrite map_rev, sumOf_rev, sumOf_pain.
Qed.

Lemma recentPain_eq (logs : list DailyLog) :
  (3 <= List.length logs)%nat ->
  JS.slice_last 3 (painData logs) = map pain (rev (firstn 3 logs)).
Proof.
  intros Hlen. unfold JS.slice_last, painData.
  rewrite length_map, length_rev, skipn_map, skipn_rev.
  replace (List.length logs - (List.length logs - 3))%nat with 3%nat by lia.
  reflexivity.
Qed.

Lemma oldPain_eq (logs : list DailyLog) :
  JS.slice_first 3 (painData logs) = map pain (rev (JS.slice_last 3 logs)).
Proof.
  unfold JS.slice_first, JS.slice_last, painData.
  now rewrite firstn_map, firstn_rev.
Qed.

(** X26.  With at most three logs the recent and the old pain samples of
    the dashboard coincide, so the pain trend is zero and no trend arrow is
    shown. *)
Theorem painTrend_short_window (logs : list DailyLog) :
  (List.length logs <= 3)%nat ->
  (painTrend logs == 0)%Q.
Proof.
  intros Hlen. unfold painTrend. cbv zeta.
  assert (Hd : (List.length (painData logs) <= 3)%nat)
    by (unfold painData; now rewrite length_map, length_rev).
  assert (Hr : JS.slice_last 3 (painData logs) = painData logs).
  { unfold JS.slice_last.
    replace (List.length (painData logs) - 3)%nat with 0%nat by lia. reflexivity. }
  assert (Ho : JS.slice_first 3 (painData logs) = painData logs)
    by (unfold JS.slice_first; now apply firstn_all2).
  rewrite Hr, Ho.
  destruct ((0 <? List.length (painData logs))%nat
            && (0 <? List.length (painData logs))%nat).
  - unfold Qminus. apply Qplus_opp_r.
  - reflexivity.
Qed.

(** X27.  With three logs or more, given most recent first as the store
    returns them, the trend is negative (pain improving) exactly when the
    three most recent logs total less pain than the three oldest. *)
Theorem painTrend_negative_iff (logs : list DailyLog) :
  (3 <= List.length logs)%nat ->
  ((painTrend logs < 0)%Q
   <-> sumPain (firstn 3 logs) < sumPain (JS.slice_last 3 logs)).
Proof.
  intros Hlen. unfold painTrend. cbv zeta.
  rewrite recentPain_eq by exact Hlen. rewrite oldPain_eq.
  assert (H1 : List.length (map pain (rev (firstn 3 logs))) = 3%nat).
  { rewrite length_map, length_rev, length_firstn. lia. }
  assert (H2 : List.length (map pain (rev (JS.slice_last 3 logs))) = 3%nat).
  { unfold JS.slice_last. rewrite length_map, length_rev, length_skipn. lia. }
  unfold meanOf. rewrite H1, H2. simpl andb. cbv iota.
  rewrite !sumOf_pain_rev.
  unfold Qlt, Qminus, Qplus, Qopp, Qdiv, Qmult, Qinv, inject_Z. simpl. lia.
Qed.

(** ** The logging streak *)








(** ** Concrete instances of the further properties *)

(** [allowed_in_sling] on the sling profile: walking, cycling and swimming
    remain. *)
Lemma allowed_in_sling_witness :
  inSling (restrictions slingProfile) = true
  /\ cardio (allowedActivities slingProfile (Some lowPainLog)) = ["walk"; "bike"; "swim"]
  /\ ~ In "run" (cardio (allowedActivities slingProfile (Some lowPainLog)))
  /\ canDoPullUps (allowedActivities slingProfile (Some lowPainLog)) = false.
Proof.
  assert (H : inSling (restrictions slingProfile) = true) by reflexivity.
  destruct (allowed_in_sling slingProfile (Some lowPainLog) H)
    as [_ [Hrun [_ [_ [_ Hpull]]]]].
  split; [exact H |]. split; [reflexivity |]. split; [exact Hrun | exact Hpull].
Defined.

(** [stage_in_sling_is_acute] on the sling profile, 100 days after the
    injury and with full range of motion logged. *)
Lemma stage_in_sling_is_acute_witness :
  inSling (restrictions slingProfile) = true
  /\ currentRecoveryStage sampleEnv slingProfile [fullRomLog] = Acute.
Proof.
  assert (H : inSling (restrictions slingProfile) = true) by reflexivity.
  split; [exact H |].
  exact (stage_in_sling_is_acute sampleEnv slingProfile [fullRomLog] H).
Defined.

(** [stage_never_regresses_with_time]: the mock profile moves from
    early-rehab to return-to-sport in 100 days. *)
Lemma stage_never_regresses_with_time_witness :
  now sampleEnv <= now laterEnv
  /\ currentRecoveryStage sampleEnv mockProfile [fullRomLog] = EarlyRehab
  /\ currentRecoveryStage laterEnv mockProfile [fullRomLog] = ReturnToSport
  /\ stage_le (currentRecoveryStage sampleEnv mockProfile [fullRomLog])
              (currentRecoveryStage laterEnv mockProfile [fullRomLog]).
Proof.
  assert (H : now sampleEnv <= now laterEnv) by (vm_compute; discriminate).
  split; [exact H |]. split; [vm_compute; reflexivity |].
  split; [vm_compute; reflexivity |].
  exact (stage_never_regresses_with_time sampleEnv laterEnv mockProfile [fullRomLog] H).
Defined.

Lemma sampleRehab_NoDup : NoDup sampleRehab.
Proof.
  apply NoDup_map_inv with (f := id).
  repeat constructor; simpl; intuition discriminate.
Qed.

(** [rehabPlan_no_repeats] on the sample catalog. *)
Lemma rehabPlan_no_repeats_witness :
  NoDup (getRehabExercises sampleEnv)
  /\ NoDup (map exercise
              (rw_exercises (rehabPlan sampleEnv Strengthening mockProfile (Some mockLog)))).
Proof.
  split; [exact sampleRehab_NoDup |].
  exact (rehabPlan_no_repeats sampleEnv Strengthening mockProfile (Some mockLog)
           sampleRehab_NoDup).
Defined.

(** [deload_lowers_cardio_minutes] on the logs of the test "reduces cardio
    minutes during deload week". *)
Lemma deload_lowers_cardio_minutes_witness :
  createdAt mockProfile <= now sampleEnv
  /\ isDeloadWeek (allowedActivities mockProfile (Some highPainLog)) = true
  /\ isDeloadWeek (allowedActivities mockProfile (Some lowPainLog)) = false
  /\ totalCardioMinutes (fitnessPlan sampleEnv mockProfile (Some highPainLog) [highPainLog])
     < totalCardioMinutes (fitnessPlan sampleEnv mockProfile (Some lowPainLog) [lowPainLog]).
Proof.
  assert (H1 : createdAt mockProfile <= now sampleEnv) by (vm_compute; discriminate).
  assert (H2 : isDeloadWeek (allowedActivities mockProfile (Some highPainLog)) = true)
    by reflexivity.
  assert (H3 : isDeloadWeek (allowedActivities mockProfile (Some lowPainLog)) = false)
    by reflexivity.
  split; [exact H1 |]. split; [exact H2 |]. split; [exact H3 |].
  exact (deload_lowers_cardio_minutes sampleEnv mockProfile (Some highPainLog)
           (Some lowPainLog) [highPainLog] [lowPainLog] H1 H2 H3).
Defined.

(** [fitnessPlan_minutes_bounds] on the mock profile. *)
Lemma fitnessPlan_minutes_bounds_witness :
  createdAt mockProfile <= now sampleEnv
  /\ 1 <= weekNumber (fitnessPlan sampleEnv mockProfile (Some mockLog) [mockLog])
  /\ 21 <= totalCardioMinutes (fitnessPlan sampleEnv mockProfile (Some mockLog) [mockLog])
     <= 180.
Proof.
  assert (H : createdAt mockProfile <= now sampleEnv) by (vm_compute; discriminate).
  split; [exact H |].
  exact (fitnessPlan_minutes_bounds sampleEnv mockProfile (Some mockLog) [mockLog] H).
Defined.

(** [rehabPage_in_sling] on the sling profile. *)
Lemma rehabPage_in_sling_witness :
  inSling (restrictions slingProfile) = true
  /\ stage (rehabPageWorkout sampleEnv slingProfile [fullRomLog]) = Acute
  /\ map (fun we => id (exercise we))
       (rw_exercises (rehabPageWorkout sampleEnv slingProfile [fullRomLog]))
     = ["pendulum"; "scap-squeeze"; "isometric-flexion"].
Proof.
  assert (H : inSling (restrictions slingProfile) = true) by reflexivity.
  destruct (rehabPage_in_sling sampleEnv slingProfile [fullRomLog] H) as [Hst _].
  split; [exact H |]. split; [exact Hst | vm_compute; reflexivity].
Defined.

(** [painTrend_short_window] on a two-entry window. *)
Lemma painTrend_short_window_witness :
  (List.length [lowPainLog; highPainLog] <= 3)%nat
  /\ (painTrend [lowPainLog; highPainLog] == 0)%Q.
Proof.
  assert (H : (List.length [lowPainLog; highPainLog] <= 3)%nat) by (simpl; lia).
  split; [exact H |].
  exact (painTrend_short_window [lowPainLog; highPainLog] H).
Defined.

(** [painTrend_negative_iff] on the eight-entry window: the three most
    recent logs total 16, the three oldest 24. *)
Lemma painTrend_negative_iff_witness :
  (3 <= List.length painfulWeekWindow)%nat
  /\ (painTrend painfulWeekWindow < 0)%Q.
Proof.
  assert (H : (3 <= List.length painfulWeekWindow)%nat) by (simpl; lia).
  split; [exact H |].
  apply (painTrend_negative_iff painfulWeekWindow H).
  vm_compute. reflexivity.
Defined.


